(** * Grid-search driver [run_gridsearch.py]: shallow embedding and properties

    The script is a sequential driver: it builds one [Arguments] object,
    mutates two of its fields while it walks two loops over [synth_ratios],
    and at every sweep point builds a model with [CustomUNet], trains it
    with [run_train.main], reduces the returned history to the best
    validation-dice epoch and prints one line.  [RuntimeError] is caught per
    sweep point; everything else propagates.

    The embedding is a state-and-exception monad over the script's local
    variables, the text written to stdout, and the state of the outside
    world (compute device, file system, clock).  [CustomUNet],
    [run_train.main], [time.time] and [time.ctime] are not part of the
    script: they are the fields of the class [Collaborators].

    Python floats are modelled by the rationals they denote ([Q]); NaN and
    the infinities are outside the model. *)

From Stdlib Require Import ZArith QArith Qround Qabs Lia Ascii String.
From stdpp Require Import base strings list gmap pretty.

Open Scope Z_scope.

(** ** Python text formatting *)

Module PyFormat.

Definition nl : string := String (Ascii.ascii_of_nat 10) EmptyString.

Fixpoint replicate_char (n : nat) (c : Ascii.ascii) : string :=
  match n with
  | O => EmptyString
  | S n' => String c (replicate_char n' c)
  end.

(** [s.ljust(w)]: the fill of the format spec [{: <4}]. *)
Definition ljust (w : nat) (s : string) : string :=
  s +:+ replicate_char (w - String.length s) " "%char.

(** Zero fill on the left: the [0] flag of the format spec [{:02.0f}],
    applied to the digits after the sign. *)
Definition zfill (w : nat) (s : string) : string :=
  replicate_char (w - String.length s) "0"%char +:+ s.

(** Rounding to the nearest integer, ties to the even one: the rounding of
    the [f] presentation type. *)
Definition round_half_even (q : Q) : Z :=
  let f := Qfloor q in
  match Qcompare (q - inject_Z f)%Q (1 # 2)%Q with
  | Lt => f
  | Gt => f + 1
  | Eq => if Z.even f then f else f + 1
  end.

Definition sign_of (q : Q) : string :=
  match Qcompare q 0%Q with Lt => "-" | _ => EmptyString end.

(** The digits (without sign) of ["{:.<prec>f}".format(q)]. *)
Definition fixed_digits (prec : nat) (q : Q) : string :=
  let p := 10 ^ Z.of_nat prec in
  let n := round_half_even (Qabs q * inject_Z p)%Q in
  match prec with
  | O => pretty n
  | S _ => pretty (n / p) +:+ "." +:+ zfill prec (pretty (n mod p))
  end.

(** ["{:.<prec>f}".format(q)] and ["%.<prec>f" % q]. *)
Definition format_f (prec : nat) (q : Q) : string :=
  sign_of q +:+ fixed_digits prec q.

(** ["{:0<w>.<prec>f}".format(q)]: the zeros go between sign and digits. *)
Definition format_0f (w prec : nat) (q : Q) : string :=
  let sg := sign_of q in
  sg +:+ zfill (w - String.length sg) (fixed_digits prec q).

(** Digits after the decimal point of a non-negative fraction [num/den]
    below one, by long division, until the remainder vanishes. *)
Fixpoint frac_digits (fuel : nat) (num den : Z) : string :=
  match fuel with
  | O => EmptyString
  | S fuel' =>
      let d := (10 * num) / den in
      let r := (10 * num) mod den in
      pretty d +:+ (if r =? 0 then EmptyString else frac_digits fuel' r den)
  end.

(** [str(x)] of a float, which is what the format spec [{: <4}] (no
    presentation type) renders: the integer part, a point and at least one
    decimal.  Exact for the values with a short decimal expansion and a
    magnitude between 1e-4 and 1e16, where Python does not switch to
    exponent notation; every value of [synth_ratios] is one. *)
Definition float_str (q : Q) : string :=
  let a := Qabs q in
  let ip := Qfloor a in
  let fr := (a - inject_Z ip)%Q in
  sign_of q +:+ pretty ip +:+ "." +:+
    frac_digits 17 (Qnum fr) (Z.pos (Qden fr)).

End PyFormat.

Import PyFormat.

(** ** Exceptions *)

(** The classes the script can meet.  [RuntimeError] stands for the class
    and its subclasses (the CUDA out-of-memory error is one): the clause
    [except RuntimeError] and the text [str(err)] do not tell them apart.
    [OtherException] is any class outside that hierarchy. *)
Inductive exc_class : Type :=
| RuntimeError
| KeyError
| IndexError
| ValueError
| OtherException (name : string).

Record exception : Type := Exception {
  exc_type : exc_class;
  exc_str : string   (* str(err) *)
}.

Definition isinstance_RuntimeError (e : exception) : bool :=
  match exc_type e with
  | RuntimeError => true
  | _ => false
  end.

Inductive result (A : Type) : Type :=
| Ok (a : A)
| Raise (e : exception).

Arguments Ok {A} a.
Arguments Raise {A} e.

(** ** Data model *)

(** [utils_common.script.Arguments]: a plain attribute bag. *)
Record script_Arguments : Type := mkArguments {
  batch_size : Z;
  data_aug : bool;
  data_dir : string;
  epochs : Z;
  eval_test : bool;
  input_channels : string;
  learning_rate : Q;
  model_dir : option string;
  no_gpu : bool;
  save_fig : bool;
  scale_crop : Q;
  seed : Z;
  synthetic_data : bool;
  synthetic_only : bool;
  synthetic_ratio : option Q;
  timeit : bool;
  use_masks : bool;
  verbose : bool
}.

(** [args.synthetic_data = v] *)
Definition set_synthetic_data (v : bool) (a : script_Arguments) :=
  mkArguments (batch_size a) (data_aug a) (data_dir a) (epochs a)
    (eval_test a) (input_channels a) (learning_rate a) (model_dir a)
    (no_gpu a) (save_fig a) (scale_crop a) (seed a) v
    (synthetic_only a) (synthetic_ratio a) (timeit a) (use_masks a)
    (verbose a).

(** [args.data_aug = v] *)
Definition set_data_aug (v : bool) (a : script_Arguments) :=
  mkArguments (batch_size a) v (data_dir a) (epochs a)
    (eval_test a) (input_channels a) (learning_rate a) (model_dir a)
    (no_gpu a) (save_fig a) (scale_crop a) (seed a) (synthetic_data a)
    (synthetic_only a) (synthetic_ratio a) (timeit a) (use_masks a)
    (verbose a).

(** [args.synthetic_ratio = v] *)
Definition set_synthetic_ratio (v : option Q) (a : script_Arguments) :=
  mkArguments (batch_size a) (data_aug a) (data_dir a) (epochs a)
    (eval_test a) (input_channels a) (learning_rate a) (model_dir a)
    (no_gpu a) (save_fig a) (scale_crop a) (seed a) (synthetic_data a)
    (synthetic_only a) v (timeit a) (use_masks a)
    (verbose a).

(** [args.input_channels = v] *)
Definition set_input_channels (v : string) (a : script_Arguments) :=
  mkArguments (batch_size a) (data_aug a) (data_dir a) (epochs a)
    (eval_test a) v (learning_rate a) (model_dir a)
    (no_gpu a) (save_fig a) (scale_crop a) (seed a) (synthetic_data a)
    (synthetic_only a) (synthetic_ratio a) (timeit a) (use_masks a)
    (verbose a).

(** The history returned by the trainer: metric name to per-epoch values. *)
Abbreviation History := (gmap string (list Q)).

(** Module-level parameters of the script. *)
Definition n_epochs : Z := 10.
Definition synth_ratios : list Q := [0; 1 # 4; 1 # 2; 3 # 4; 1]%Q.

(** ** Library operations used by the script *)

Definition Qlt_bool (x y : Q) : bool := negb (Qle_bool y x).

(** The scan behind [np.argmax]: the running best is replaced only by a
    strictly larger value, so the first occurrence of the maximum wins. *)
Fixpoint argmax_from (best_i : nat) (best : Q) (i : nat) (l : list Q) : nat :=
  match l with
  | [] => best_i
  | x :: l' =>
      if Qlt_bool best x then argmax_from i x (S i) l'
      else argmax_from best_i best (S i) l'
  end.

(** [np.argmax(l)]; numpy refuses an empty sequence. *)
Definition np_argmax (l : list Q) : result nat :=
  match l with
  | [] => Raise (Exception ValueError
                   "attempt to get argmax of an empty sequence")
  | x :: l' => Ok (argmax_from 0 x 1 l')
  end.

(** [history[key]] *)
Definition getitem_key (history : History) (key : string)
  : result (list Q) :=
  match history !! key with
  | Some l => Ok l
  | None => Raise (Exception KeyError ("'" +:+ key +:+ "'"))
  end.

(** [l[i]] for an index that is not negative. *)
Definition getitem_index (l : list Q) (i : nat) : result Q :=
  match l !! i with
  | Some x => Ok x
  | None => Raise (Exception IndexError "list index out of range")
  end.

(** [duration // n] and [duration % n] for a positive [n]. *)
Definition py_floordiv (x n : Q) : Q := inject_Z (Qfloor (x / n)%Q).
Definition py_mod (x n : Q) : Q :=
  (x - n * inject_Z (Qfloor (x / n)))%Q.

(** ** The collaborators and the driver's state *)

(** What the script imports and does not define.  Each one runs against the
    state of the outside world and may raise.  [run_train_main] receives the
    [args] object itself, not a copy: the arguments it hands back are the
    object as the call left it, also when the call raises. *)
Class Collaborators (World Model : Type) : Type := {
  (** [CustomUNet(n, u_depth=d, out1_channels=c, batchnorm=b)] *)
  CustomUNet : nat -> nat -> nat -> bool -> World -> result Model * World;
  (** [run_train.main(args, model=model)] *)
  run_train_main :
    script_Arguments -> Model -> World ->
    result History * script_Arguments * World;
  (** [time.time()] *)
  time_time : World -> Q * World;
  (** [time.ctime()] *)
  time_ctime : World -> string * World
}.

(** What an observer of one execution sees, in order: the text handed to
    stdout by each [print], and the calls that leave the script together
    with their outcome. *)
Inductive event (Model : Type) : Type :=
| Stdout (text : string)
| CallCustomUNet (n_in u_depth out1 : nat) (bn : bool) (r : result Model)
| CallTrain (a : script_Arguments) (m : Model) (r : result History).

Arguments Stdout {Model} text.
Arguments CallCustomUNet {Model} n_in u_depth out1 bn r.
Arguments CallTrain {Model} a m r.

(** The locals [args] and [model] of [main], the trace so far and the
    world. *)
Record state (World Model : Type) : Type := mkState {
  args : script_Arguments;
  model : option Model;
  trace : list (event Model);
  world : World
}.

Arguments mkState {World Model} args model trace world.
Arguments args {World Model} s.
Arguments model {World Model} s.
Arguments trace {World Model} s.
Arguments world {World Model} s.

(** The text of the trace, one entry per [print]. *)
Definition stdout_of {Model : Type} (t : list (event Model)) : list string :=
  omap (fun ev => match ev with Stdout s => Some s | _ => None end) t.

Section Monad.

Context {World Model : Type}.

Definition M (A : Type) : Type :=
  state World Model -> result A * state World Model.

Definition ret {A : Type} (a : A) : M A := fun s => (Ok a, s).

Definition bind {A B : Type} (c : M A) (k : A -> M B) : M B :=
  fun s =>
    match c s with
    | (Ok a, s') => k a s'
    | (Raise e, s') => (Raise e, s')
    end.

Definition lift {A : Type} (r : result A) : M A := fun s => (r, s).

(** [try: body / except RuntimeError as err: handler] *)
Definition try_except_RuntimeError
    (body : M unit) (handler : exception -> M unit) : M unit :=
  fun s =>
    match body s with
    | (Ok a, s') => (Ok a, s')
    | (Raise e, s') =>
        if isinstance_RuntimeError e then handler e s'
        else (Raise e, s')
    end.

End Monad.

Declare Scope driver_scope.
Delimit Scope driver_scope with driver.

Notation "x <- c ;; k" := (bind c (fun x => k))
  (at level 100, c at next level, right associativity) : driver_scope.
Notation "c ;; k" := (bind c (fun _ => k))
  (at level 100, right associativity) : driver_scope.

Section Driver.

Context {World Model : Type} `{!Collaborators World Model}.

Local Open Scope driver_scope.

#[local] Abbreviation M := (@M World Model).

Definition get_args : M script_Arguments := fun s => (Ok (args s), s).

Definition update_args (f : script_Arguments -> script_Arguments)
  : M unit :=
  fun s => (Ok tt, mkState (f (args s)) (model s) (trace s) (world s)).

(** [model = m] *)
Definition assign_model (m : Model) : M unit :=
  fun s => (Ok tt, mkState (args s) (Some m) (trace s) (world s)).

Definition emit (ev : event Model) : M unit :=
  fun s =>
    (Ok tt, mkState (args s) (model s) (trace s ++ [ev]) (world s)).

(** [print(text)] *)
Definition print (text : string) : M unit := emit (Stdout (text +:+ nl)).

(** [print(text, end='', flush=True)] *)
Definition print_noend (text : string) : M unit := emit (Stdout text).

Definition call_time : M Q :=
  fun s =>
    let '(t, w) := time_time (world s) in
    (Ok t, mkState (args s) (model s) (trace s) w).

Definition call_ctime : M string :=
  fun s =>
    let '(t, w) := time_ctime (world s) in
    (Ok t, mkState (args s) (model s) (trace s) w).

Definition call_CustomUNet (n_in u_depth out1 : nat) (bn : bool)
  : M Model :=
  fun s =>
    let '(r, w) := CustomUNet n_in u_depth out1 bn (world s) in
    (r, mkState (args s) (model s)
          (trace s ++ [CallCustomUNet n_in u_depth out1 bn r]) w).

(** The call [run_train.main(args, model=m)] on the driver's [args]
    object. *)
Definition call_run_train (m : Model) : M History :=
  fun s =>
    let '(r, a', w) := run_train_main (args s) m (world s) in
    (r, mkState a' (model s) (trace s ++ [CallTrain (args s) m r]) w).

(** The argument list of the [format] call of lines 63 to 67 and 85 to
    89, evaluated left to right, and the text it produces. *)
Definition metric_line (loss sc1 lossC dice sc2 diC : Q) : string :=
  " | loss=" +:+ format_f 6 loss +:+
  " - lossC" +:+ format_f 1 sc1 +:+ "=" +:+ format_f 6 lossC +:+
  " - dice=" +:+ format_f 6 dice +:+
  " - diC" +:+ format_f 1 sc2 +:+ "=" +:+ format_f 6 diC.

Definition report (history : History) (best_epoch : nat) : M string :=
  l_loss <- lift (getitem_key history "val_loss") ;;
  loss <- lift (getitem_index l_loss best_epoch) ;;
  a1 <- get_args ;;
  a2 <- get_args ;;
  l_lossC <- lift (getitem_key history
                     ("val_lossC" +:+ format_f 1 (scale_crop a2))) ;;
  lossC <- lift (getitem_index l_lossC best_epoch) ;;
  l_dice <- lift (getitem_key history "val_dice") ;;
  dice <- lift (getitem_index l_dice best_epoch) ;;
  a3 <- get_args ;;
  a4 <- get_args ;;
  l_diC <- lift (getitem_key history
                   ("val_diC" +:+ format_f 1 (scale_crop a4))) ;;
  diC <- lift (getitem_index l_diC best_epoch) ;;
  ret (metric_line loss (scale_crop a1) lossC dice (scale_crop a3) diC).

(** The body of the [try] of lines 56 to 67 and 78 to 89. *)
Definition try_body : M unit :=
  a <- get_args ;;
  m <- call_CustomUNet (String.length (input_channels a)) 4 16 true ;;
  assign_model m ;;
  history <- call_run_train m ;;
  l_dice <- lift (getitem_key history "val_dice") ;;
  best_epoch <- lift (np_argmax l_dice) ;;
  line <- report history best_epoch ;;
  print line.

(** [" | RuntimeError ({})".format(err)] *)
Definition failure_text (err : exception) : string :=
  " | RuntimeError (" +:+ exc_str err +:+ ")".

(** The handler of lines 69-70 and 91-92. *)
Definition except_body (err : exception) : M unit :=
  print (failure_text err).

(** ["synth_ratio={: <4}".format(synth_ratio)] *)
Definition prefix_text (synth_ratio : Q) : string :=
  "synth_ratio=" +:+ ljust 4 (float_str synth_ratio).

(** One iteration of either [for synth_ratio in synth_ratios] loop: the
    two loop bodies (lines 53 to 70 and 75 to 92) are the same text. *)
Definition sweep_point (synth_ratio : Q) : M unit :=
  update_args (set_synthetic_ratio (Some synth_ratio)) ;;
  print_noend (prefix_text synth_ratio) ;;
  try_except_RuntimeError try_body except_body.

Fixpoint for_each {A : Type} (body : A -> M unit) (l : list A) : M unit :=
  match l with
  | [] => ret tt
  | x :: l' => body x ;; for_each body l'
  end.

(** [Arguments(...)] of lines 26 to 45. *)
Definition base_args : script_Arguments := {|
  batch_size := 32;
  data_aug := false;
  data_dir := "/data/talabot/dataset_cv-annotated/";
  epochs := n_epochs;
  eval_test := false;
  input_channels := "R";
  learning_rate := (1 # 1000)%Q;
  model_dir := None;
  no_gpu := false;
  save_fig := false;
  scale_crop := 4%Q;
  seed := 1;
  synthetic_data := false;
  synthetic_only := false;
  synthetic_ratio := None;
  timeit := false;
  use_masks := false;
  verbose := false
|}.

Definition duration_msg (duration : Q) : string :=
  format_f 0 (py_floordiv duration 3600) +:+ "h " +:+
  format_0f 2 0 (py_mod (py_floordiv duration 60) 60) +:+ "min " +:+
  format_0f 2 0 (py_mod duration 60) +:+ "s".

(** Lines 94 to 99. *)
Definition footer (start_time : Q) : M unit :=
  end_time <- call_time ;;
  let duration := (end_time - start_time)%Q in
  now <- call_ctime ;;
  print (nl +:+ "Ending on " +:+ now) ;;
  print ("Script duration: " +:+ duration_msg duration +:+ ".").

(** Lines 51 to 92: the two sweeps. *)
Definition sweeps : M unit :=
  print "Input channels: R" ;;
  for_each sweep_point synth_ratios ;;
  update_args (set_input_channels "RG") ;;
  print (nl +:+ "Input channels: RG") ;;
  for_each sweep_point synth_ratios.

(** Lines 22 to 49, from the point where [args] and [model] exist. *)
Definition body (start_time : Q) : M unit :=
  update_args (set_synthetic_data true) ;;
  update_args (set_data_aug true) ;;
  print ("Data augmentation is enabled." +:+ nl) ;;
  sweeps ;;
  footer start_time.

(** The text of the [print] of line 22. *)
Definition banner_text (now : string) : string :=
  "Starting on " +:+ now +:+ nl +:+ nl +:+
  "Results over validation data (" +:+ pretty n_epochs +:+
  " epochs):" +:+ nl +:+ nl.

(** [main()], run against the world [w]. *)
Definition main (w : World) : result unit * state World Model :=
  let '(now, w1) := time_ctime w in
  let '(start_time, w2) := time_time w1 in
  body start_time
    (mkState base_args None [Stdout (banner_text now)] w2).

End Driver.

(** ** Scripted collaborators

    A world that replays a script: the outcomes of the coming model
    constructions and trainings in order, and a clock that advances by
    [tick] seconds at every reading.  When a script has run out the call
    succeeds with [default_history]. *)

Module Scripted.

Record World : Type := mkWorld {
  clock : Q;
  tick : Q;
  ctor_script : list (option exception);
  train_script : list (result History)
}.

Definition default_history : History :=
  <["val_loss" := [9 # 10; 4 # 10]%Q]>
  (<["val_lossC4.0" := [8 # 10; 3 # 10]%Q]>
  (<["val_dice" := [2 # 10; 6 # 10]%Q]>
  (<["val_diC4.0" := [25 # 100; 65 # 100]%Q]> ∅))).

(** The history of the spec's example: [val_dice = [0.1, 0.5, 0.3]]. *)
Definition example_history : History :=
  <["val_loss" := [9 # 10; 4 # 10; 5 # 10]%Q]>
  (<["val_lossC4.0" := [8 # 10; 3 # 10; 35 # 100]%Q]>
  (<["val_dice" := [1 # 10; 5 # 10; 3 # 10]%Q]>
  (<["val_diC4.0" := [15 # 100; 55 # 100; 35 # 100]%Q]> ∅))).

(** Models are told apart by the number of constructions before them. *)
Definition Model : Type := nat.

#[export] Instance scripted : Collaborators World Model := {|
  CustomUNet _ _ _ _ w :=
    match ctor_script w with
    | Some e :: rest =>
        (Raise e, mkWorld (clock w) (tick w) rest (train_script w))
    | None :: rest =>
        (Ok (length rest), mkWorld (clock w) (tick w) rest (train_script w))
    | [] => (Ok O, w)
    end;
  run_train_main a _ w :=
    match train_script w with
    | r :: rest => (r, a, mkWorld (clock w) (tick w) (ctor_script w) rest)
    | [] => (Ok default_history, a, w)
    end;
  time_time w :=
    (clock w,
     mkWorld (clock w + tick w)%Q (tick w) (ctor_script w) (train_script w));
  time_ctime w := ("Wed Oct 31 16:38:54 2018", w)
|}.

(** A trainer that rewrites a field of the [args] object it is given. *)
Definition meddling : Collaborators World Model := {|
  CustomUNet := CustomUNet (Collaborators := scripted);
  run_train_main a _ w :=
    (Ok default_history, set_data_aug false a, w);
  time_time := time_time (Collaborators := scripted);
  time_ctime := time_ctime (Collaborators := scripted)
|}.

Definition out_of_memory : exception :=
  Exception RuntimeError "CUDA out of memory".

Definition interrupted : exception :=
  Exception (OtherException "KeyboardInterrupt") EmptyString.

(** Every run succeeds; the script lasts 3725.5 seconds. *)
Definition w_all_ok : World := mkWorld 1000 (7451 # 2) [] [].

(** The trainer runs out of memory at the second sweep point. *)
Definition w_train_oom : World :=
  mkWorld 0 1 [] [Ok default_history; Raise out_of_memory].

(** The trainer is interrupted at the third sweep point. *)
Definition w_train_interrupted : World :=
  mkWorld 0 1 [] [Ok default_history; Raise out_of_memory;
                  Raise interrupted].

(** Model construction runs out of memory at the second sweep point. *)
Definition w_ctor_oom : World :=
  mkWorld 0 1 [None; Some out_of_memory] [].

(** Model construction fails with a [ValueError] at the second point. *)
Definition w_ctor_fatal : World :=
  mkWorld 0 1 [None; Some (Exception ValueError "bad depth")] [].

(** The first run returns the history of the spec's example. *)
Definition w_example : World := mkWorld 0 1 [] [Ok example_history].

End Scripted.

(** ** Vocabulary of the properties *)

(** [b] is the first position at which [l] takes its maximum, [v]. *)
Definition first_max (l : list Q) (b : nat) (v : Q) : Prop :=
  l !! b = Some v /\
  forall (j : nat) (x : Q), l !! j = Some x ->
    (x <= v)%Q /\ (x == v -> (b <= j)%nat).

Definition result_bind {A B : Type} (r : result A) (k : A -> result B)
  : result B :=
  match r with
  | Ok a => k a
  | Raise e => Raise e
  end.

(** What [report] computes, as a function of the scale-crop factor that
    [args] holds when the trainer has returned. *)
Definition read_metrics (sc : Q) (history : History) (b : nat)
  : result string :=
  result_bind (getitem_key history "val_loss") (fun l_loss =>
  result_bind (getitem_index l_loss b) (fun loss =>
  result_bind (getitem_key history ("val_lossC" +:+ format_f 1 sc))
    (fun l_lossC =>
  result_bind (getitem_index l_lossC b) (fun lossC =>
  result_bind (getitem_key history "val_dice") (fun l_dice =>
  result_bind (getitem_index l_dice b) (fun dice =>
  result_bind (getitem_key history ("val_diC" +:+ format_f 1 sc))
    (fun l_diC =>
  result_bind (getitem_index l_diC b) (fun diC =>
  Ok (metric_line loss sc lossC dice sc diC))))))))).

(** Lines 62 to 67: from the history to the text of the result line. *)
Definition best_epoch_line (sc : Q) (history : History) : result string :=
  result_bind (getitem_key history "val_dice") (fun l_dice =>
  result_bind (np_argmax l_dice) (fun best_epoch =>
  read_metrics sc history best_epoch)).

(** The two lines of the footer start like no other line of the script. *)
Definition is_footer (text : string) : bool :=
  String.prefix (nl +:+ "Ending on ") text
  || String.prefix "Script duration: " text.

(** The exception a call left the script with, if it did. *)
Definition raised {Model : Type} (ev : event Model) : option exception :=
  match ev with
  | CallCustomUNet _ _ _ _ (Raise e) => Some e
  | CallTrain _ _ (Raise e) => Some e
  | _ => None
  end.

(** An event of a sweep that is still going: no footer text, and no call
    that raised outside the [RuntimeError] hierarchy. *)
Definition calm {Model : Type} (ev : event Model) : Prop :=
  match ev with
  | Stdout text => is_footer text = false
  | _ => forall e, raised ev = Some e -> isinstance_RuntimeError e = true
  end.

(** The configuration as the sweeps find it: lines 26 to 48. *)
Definition sweep_start_args : script_Arguments :=
  set_data_aug true (set_synthetic_data true base_args).

(** Agreement on every field but [input_channels] and
    [synthetic_ratio]. *)
Definition same_unswept (a b : script_Arguments) : Prop :=
  batch_size a = batch_size b /\ data_aug a = data_aug b /\
  data_dir a = data_dir b /\ epochs a = epochs b /\
  eval_test a = eval_test b /\ learning_rate a = learning_rate b /\
  model_dir a = model_dir b /\ no_gpu a = no_gpu b /\
  save_fig a = save_fig b /\ scale_crop a = scale_crop b /\
  seed a = seed b /\ synthetic_data a = synthetic_data b /\
  synthetic_only a = synthetic_only b /\ timeit a = timeit b /\
  use_masks a = use_masks b /\ verbose a = verbose b.

(** The trainer honours its contract: it reads [args] and leaves the object
    as it found it. *)
Definition trainer_reads_only {World Model : Type}
    `{!Collaborators World Model} : Prop :=
  forall (a : script_Arguments) (m : Model) (w : World),
    (run_train_main a m w).1.2 = a.

(** The stdout of one sweep: per point its prefix, then the text that
    completes the line. *)
Fixpoint group_output (ratios : list Q) (endings : list string)
  : list string :=
  match ratios, endings with
  | r :: ratios', e :: endings' =>
      prefix_text r :: e :: group_output ratios' endings'
  | _, _ => []
  end.

(** The arguments of the model constructions of a trace, in order. *)
Definition constructions {Model : Type} (t : list (event Model))
  : list (nat * nat * nat * bool) :=
  omap (fun ev => match ev with
                  | CallCustomUNet n d c b _ => Some (n, d, c, b)
                  | _ => None
                  end) t.

(** The configurations the trainer was called with, in order. *)
Definition trainings {Model : Type} (t : list (event Model))
  : list script_Arguments :=
  omap (fun ev => match ev with
                  | CallTrain a _ _ => Some a
                  | _ => None
                  end) t.

Section NormalForm.

Context {World Model : Type} `{!Collaborators World Model}.

Implicit Types (s : state World Model) (e : exception) (ratio : Q).

(** What the [except] clause makes of an exception that leaves the [try]
    body in state [s]. *)
Definition handled e s : result unit * state World Model :=
  if isinstance_RuntimeError e
  then (Ok tt, mkState (args s) (model s)
                 (trace s ++ [Stdout (failure_text e +:+ nl)]) (world s))
  else (Raise e, s).

(** [sweep_point] with the monad unfolded: the outcomes of the two calls
    decide everything. *)
Definition sweep_point_nf ratio s : result unit * state World Model :=
  let a1 := set_synthetic_ratio (Some ratio) (args s) in
  let t1 := trace s ++ [Stdout (prefix_text ratio)] in
  let n := String.length (input_channels a1) in
  match CustomUNet n 4 16 true (world s) with
  | (Raise e, w1) =>
      handled e (mkState a1 (model s)
                   (t1 ++ [CallCustomUNet n 4 16 true (Raise e)]) w1)
  | (Ok m, w1) =>
      let t2 := t1 ++ [CallCustomUNet n 4 16 true (Ok m)] in
      match run_train_main a1 m w1 with
      | (Raise e, a2, w2) =>
          handled e (mkState a2 (Some m)
                       (t2 ++ [CallTrain a1 m (Raise e)]) w2)
      | (Ok h, a2, w2) =>
          let t3 := t2 ++ [CallTrain a1 m (Ok h)] in
          match best_epoch_line (scale_crop a2) h with
          | Ok line =>
              (Ok tt, mkState a2 (Some m)
                        (t3 ++ [Stdout (line +:+ nl)]) w2)
          | Raise e => handled e (mkState a2 (Some m) t3 w2)
          end
      end
  end.

(** The state in which the first sweep starts, the state in which the
    second one starts after the first ended in [s], and the state the
    footer leaves after the second ended in [s]. *)
Definition first_sweep_state (now : string) (w : World)
  : state World Model :=
  mkState sweep_start_args None
    [Stdout (banner_text now);
     Stdout (("Data augmentation is enabled." +:+ nl) +:+ nl);
     Stdout ("Input channels: R" +:+ nl)] w.

Definition second_sweep_state s : state World Model :=
  mkState (set_input_channels "RG" (args s)) (model s)
    (trace s ++ [Stdout ((nl +:+ "Input channels: RG") +:+ nl)])
    (world s).

Definition ending_text (now : string) : string :=
  (nl +:+ "Ending on " +:+ now) +:+ nl.

Definition duration_text (duration : Q) : string :=
  ("Script duration: " +:+ duration_msg duration +:+ ".") +:+ nl.

Definition footer_state (start_time : Q) s : state World Model :=
  let '(end_time, w3) := time_time (world s) in
  let '(now, w4) := time_ctime w3 in
  mkState (args s) (model s)
    (trace s ++ [Stdout (ending_text now);
                 Stdout (duration_text (end_time - start_time)%Q)]) w4.

(** [main] with the monad unfolded. *)
Definition main_nf (w : World) : result unit * state World Model :=
  let '(now, w1) := time_ctime w in
  let '(start_time, w2) := time_time w1 in
  match for_each sweep_point synth_ratios (first_sweep_state now w2) with
  | (Raise e, s1) => (Raise e, s1)
  | (Ok _, s1) =>
      match for_each sweep_point synth_ratios (second_sweep_state s1) with
      | (Raise e, s2) => (Raise e, s2)
      | (Ok _, s2) => (Ok tt, footer_state start_time s2)
      end
  end.

End NormalForm.

(** The trace of a run that exception [e] ended: calm up to the call that
    raised [e], or calm throughout when [e] came from reading the
    history. *)
Definition stopped_by {Model : Type} (e : exception)
    (t : list (event Model)) : Prop :=
  isinstance_RuntimeError e = false /\
  exists t0, Forall calm t0 /\
    (t = t0 \/ exists ev, t = t0 ++ [ev] /\ raised ev = Some e).

(** The configuration of the sweep point [(c, r)]. *)
Definition point_args (c : string) (r : Q) : script_Arguments :=
  set_synthetic_ratio (Some r) (set_input_channels c sweep_start_args).

(** The configurations of the ten sweep points, in the order of the two
    loops. *)
Definition sweep_plan : list script_Arguments :=
  (point_args "R" <$> synth_ratios) ++ (point_args "RG" <$> synth_ratios).

(** The state of a sweep over the channels [c]: [args] is the base
    configuration of that sweep up to its ratio. *)
Definition sweeping {World Model : Type} (c : string)
    (s : state World Model) : Prop :=
  set_synthetic_ratio None (args s) =
  set_synthetic_ratio None (set_input_channels c sweep_start_args).

(** ** States of the scripted world at a sweep point *)

Module Scenarios.

Import Scripted.

Definition now : string := "Wed Oct 31 16:38:54 2018".

(** The first sweep point, with a trainer about to run out of memory. *)
Definition s_train_oom : state World Model :=
  first_sweep_state now (mkWorld 0 1 [] [Raise out_of_memory]).

(** The first sweep point, with a model construction about to run out of
    memory. *)
Definition s_ctor_oom : state World Model :=
  first_sweep_state now (mkWorld 0 1 [Some out_of_memory] []).

(** The first sweep point, with a trainer about to return the history of
    the spec's example. *)
Definition s_example : state World Model :=
  first_sweep_state now w_example.

End Scenarios.

(** ** Vocabulary of the further properties *)

(** A history the reduction can read at scale [sc]: the four sequences are
    there, [val_dice] is not empty and no other sequence is shorter. *)
Definition complete_history (sc : Q) (h : History) : Prop :=
  exists l_loss l_lossC l_dice l_diC : list Q,
    h !! "val_loss" = Some l_loss /\
    h !! ("val_lossC" +:+ format_f 1 sc) = Some l_lossC /\
    h !! "val_dice" = Some l_dice /\
    h !! ("val_diC" +:+ format_f 1 sc) = Some l_diC /\
    l_dice <> [] /\
    (length l_dice <= length l_loss)%nat /\
    (length l_dice <= length l_lossC)%nat /\
    (length l_dice <= length l_diC)%nat.

(** Collaborators that fail with [RuntimeError] only and return complete
    histories. *)
Definition benign {World Model : Type} `{!Collaborators World Model}
  : Prop :=
  (forall (n d c : nat) (b : bool) (w w' : World) (e : exception),
     CustomUNet n d c b w = (Raise e, w') ->
     isinstance_RuntimeError e = true) /\
  (forall (a a' : script_Arguments) (m : Model) (w w' : World)
          (r : result History),
     run_train_main a m w = (r, a', w') ->
     match r with
     | Raise e => isinstance_RuntimeError e = true
     | Ok h => complete_history (scale_crop a') h
     end).

(** Every trainer call of the trace comes right after the construction that
    returned the model it is given, with the input channels of the
    configuration it is given. *)
Definition fresh_models {Model : Type} (t : list (event Model)) : Prop :=
  forall (t1 t2 : list (event Model)) (a : script_Arguments) (m : Model)
         (r : result History),
    t = t1 ++ CallTrain a m r :: t2 ->
    exists t0,
      t1 = t0 ++ [CallCustomUNet (String.length (input_channels a)) 4 16
                    true (Ok m)].

(** ** Steady collaborators

    Construction always succeeds; the trainer runs out of memory on two
    input channels and otherwise returns a complete two-epoch history for
    the scale it is given. *)

Module Steady.

Definition history_for (sc : Q) : History :=
  <["val_loss" := [9 # 10; 4 # 10]%Q]>
  (<["val_lossC" +:+ format_f 1 sc := [8 # 10; 3 # 10]%Q]>
  (<["val_dice" := [2 # 10; 6 # 10]%Q]>
  (<["val_diC" +:+ format_f 1 sc := [25 # 100; 65 # 100]%Q]> ∅))).

Definition steady : Collaborators Scripted.World Scripted.Model := {|
  CustomUNet _ _ _ _ w := (Ok O, w);
  run_train_main a _ w :=
    (if String.eqb (input_channels a) "RG"
     then Raise Scripted.out_of_memory
     else Ok (history_for (scale_crop a)), a, w);
  time_time := time_time (Collaborators := Scripted.scripted);
  time_ctime := time_ctime (Collaborators := Scripted.scripted)
|}.

End Steady.

(** ** States of the scripted world with a malformed history *)

Module EdgeScenarios.

Import Scripted.

(** The trainer is about to return a history without [val_dice]. *)
Definition s_no_dice : state World Model :=
  first_sweep_state Scenarios.now
    (mkWorld 0 1 [] [Ok (<["val_loss" := [1 # 2]%Q]> ∅)]).

(** The trainer is about to return a history with an empty [val_dice]. *)
Definition s_empty_dice : state World Model :=
  first_sweep_state Scenarios.now
    (mkWorld 0 1 [] [Ok (<["val_dice" := []]> ∅)]).

(** A run whose first training returns a history without [val_dice]. *)
Definition w_no_dice : World :=
  mkWorld 0 1 [] [Ok (<["val_loss" := [1 # 2]%Q]> ∅)].

End EdgeScenarios.

(** The events of a sweep point that ends normally, for the configuration
    [a] the point works with and the scale [sc] that [args] holds when the
    trainer has returned.  The point prints its prefix and constructs one
    model; if the construction fails with a [RuntimeError] it prints the
    failure line and the trainer is not called; otherwise it calls the
    trainer once, on [a] and the model just constructed, and prints the
    failure line of the trainer's [RuntimeError] or the result line of the
    history. *)
Inductive completed_point {Model : Type} (a : script_Arguments) (sc : Q)
    (ratio : Q) : list (event Model) -> Prop :=
| point_without_model (e : exception) :
    isinstance_RuntimeError e = true ->
    completed_point a sc ratio
      [Stdout (prefix_text ratio);
       CallCustomUNet (String.length (input_channels a)) 4 16 true (Raise e);
       Stdout (failure_text e +:+ nl)]
| point_without_history (m : Model) (e : exception) :
    isinstance_RuntimeError e = true ->
    completed_point a sc ratio
      [Stdout (prefix_text ratio);
       CallCustomUNet (String.length (input_channels a)) 4 16 true (Ok m);
       CallTrain a m (Raise e);
       Stdout (failure_text e +:+ nl)]
| point_with_result (m : Model) (h : History) (line : string) :
    best_epoch_line sc h = Ok line ->
    completed_point a sc ratio
      [Stdout (prefix_text ratio);
       CallCustomUNet (String.length (input_channels a)) 4 16 true (Ok m);
       CallTrain a m (Ok h);
       Stdout (line +:+ nl)].

(** * Properties *)

(** ** Order on the rationals and [np.argmax] *)

Lemma Qlt_bool_true (x y : Q) : Qlt_bool x y = true -> (x < y)%Q.
Proof.
  unfold Qlt_bool. intros H. apply negb_true_iff in H.
  apply Qnot_le_lt. intros Hle. apply Qle_bool_iff in Hle. congruence.
Qed.

Lemma Qlt_bool_false (x y : Q) : Qlt_bool x y = false -> (y <= x)%Q.
Proof.
  unfold Qlt_bool. intros H. apply negb_false_iff in H.
  by apply Qle_bool_iff.
Qed.

Lemma first_max_snoc_new (l : list Q) (b : nat) (v x : Q) :
  first_max l b v -> (v < x)%Q -> first_max (l ++ [x]) (length l) x.
Proof.
  intros [Hb Hall] Hlt. split.
  - rewrite lookup_app_r by lia. by rewrite Nat.sub_diag.
  - intros j y Hj. destruct (decide (j < length l)%nat) as [Hlen|Hlen].
    + rewrite lookup_app_l in Hj by done.
      destruct (Hall j y Hj) as [Hle _]. split.
      * apply Qlt_le_weak. eapply Qle_lt_trans; eauto.
      * intros Heq. exfalso. rewrite Heq in Hle.
        apply (Qlt_irrefl x). eapply Qle_lt_trans; eauto.
    + split; [|lia]. rewrite lookup_app_r in Hj by lia.
      destruct (j - length l)%nat eqn:E; simpl in Hj; [|by destruct n].
      injection Hj as <-. apply Qle_refl.
Qed.

Lemma first_max_snoc_keep (l : list Q) (b : nat) (v x : Q) :
  first_max l b v -> (x <= v)%Q -> first_max (l ++ [x]) b v.
Proof.
  intros [Hb Hall] Hle. pose proof (lookup_lt_Some _ _ _ Hb) as Hlt. split.
  - by rewrite lookup_app_l.
  - intros j y Hj. destruct (decide (j < length l)%nat) as [Hlen|Hlen].
    + rewrite lookup_app_l in Hj by done. by apply Hall.
    + rewrite lookup_app_r in Hj by lia.
      destruct (j - length l)%nat eqn:E; simpl in Hj; [|by destruct n].
      injection Hj as <-. split; [done|lia].
Qed.

Lemma argmax_from_first_max (l seen : list Q) (best_i : nat) (best : Q) :
  first_max seen best_i best ->
  exists v, first_max (seen ++ l)
              (argmax_from best_i best (length seen) l) v.
Proof.
  revert seen best_i best.
  induction l as [|x l IH]; intros seen best_i best Hinv; simpl.
  - exists best. by rewrite app_nil_r.
  - replace (seen ++ x :: l) with ((seen ++ [x]) ++ l)
      by (by rewrite <- app_assoc).
    replace (S (length seen)) with (length (seen ++ [x]))
      by (rewrite length_app; simpl; lia).
    destruct (Qlt_bool best x) eqn:Hcmp.
    + apply IH. eapply first_max_snoc_new; eauto using Qlt_bool_true.
    + apply IH. apply first_max_snoc_keep; auto using Qlt_bool_false.
Qed.

Lemma first_max_singleton (x : Q) : first_max [x] 0 x.
Proof.
  split; [done|]. intros [|j] y Hj; simpl in Hj; [|done].
  injection Hj as <-. split; [apply Qle_refl|lia].
Qed.

Lemma np_argmax_first_max (x : Q) (l : list Q) :
  exists b v, np_argmax (x :: l) = Ok b /\ first_max (x :: l) b v.
Proof.
  destruct (argmax_from_first_max l [x] 0 x (first_max_singleton x))
    as [v Hv].
  exists (argmax_from 0 x 1 l), v. split; [reflexivity|exact Hv].
Qed.

(** The first position of the maximum is unique. *)
Lemma first_max_unique (l : list Q) (b b' : nat) (v v' : Q) :
  first_max l b v -> first_max l b' v' -> b = b'.
Proof.
  intros [Hb Hall] [Hb' Hall'].
  destruct (Hall _ _ Hb') as [Hle1 Hfirst1].
  destruct (Hall' _ _ Hb) as [Hle2 Hfirst2].
  assert (v == v') as Heq by (by apply Qle_antisym).
  assert (b <= b')%nat by (apply Hfirst1; by symmetry).
  assert (b' <= b)%nat by (by apply Hfirst2).
  lia.
Qed.

(** ** The reduction of a history *)

Lemma getitem_key_Ok (h : History) (key : string) (l : list Q) :
  getitem_key h key = Ok l <-> h !! key = Some l.
Proof.
  unfold getitem_key. destruct (h !! key); split; intros H;
    first [by injection H as -> | done].
Qed.

Lemma getitem_index_Ok (l : list Q) (i : nat) (x : Q) :
  getitem_index l i = Ok x <-> l !! i = Some x.
Proof.
  unfold getitem_index. destruct (l !! i); split; intros H;
    first [by injection H as -> | done].
Qed.

Lemma getitem_key_Raise (h : History) (key : string) (e : exception) :
  getitem_key h key = Raise e -> isinstance_RuntimeError e = false.
Proof.
  unfold getitem_key. destruct (h !! key); intros H; [done|].
  by injection H as <-.
Qed.

Lemma getitem_index_Raise (l : list Q) (i : nat) (e : exception) :
  getitem_index l i = Raise e -> isinstance_RuntimeError e = false.
Proof.
  unfold getitem_index. destruct (l !! i); intros H; [done|].
  by injection H as <-.
Qed.

Lemma np_argmax_Raise (l : list Q) (e : exception) :
  np_argmax l = Raise e -> isinstance_RuntimeError e = false.
Proof. destruct l; intros H; [by injection H as <-|done]. Qed.

Ltac result_bind_raise :=
  repeat match goal with
    | H : result_bind ?r _ = Raise _ |- _ =>
        let E := fresh "E" in
        destruct r eqn:E; cbn [result_bind] in H;
        [|injection H as <-;
          eauto using getitem_key_Raise, getitem_index_Raise,
            np_argmax_Raise]
    end.

(** The reduction raises [KeyError], [IndexError] or [ValueError], never a
    [RuntimeError]: what it raises leaves the [try] statement. *)
Lemma read_metrics_Raise (sc : Q) (h : History) (b : nat) (e : exception) :
  read_metrics sc h b = Raise e -> isinstance_RuntimeError e = false.
Proof. unfold read_metrics. intros H. result_bind_raise. done. Qed.

Lemma best_epoch_line_Raise (sc : Q) (h : History) (e : exception) :
  best_epoch_line sc h = Raise e -> isinstance_RuntimeError e = false.
Proof.
  unfold best_epoch_line. intros H. result_bind_raise.
  eauto using read_metrics_Raise.
Qed.

Lemma read_metrics_Ok (sc : Q) (h : History) (b : nat) (line : string) :
  read_metrics sc h b = Ok line ->
  exists l_loss l_lossC l_dice l_diC loss lossC dice diC,
    h !! "val_loss" = Some l_loss /\ l_loss !! b = Some loss /\
    h !! ("val_lossC" +:+ format_f 1 sc) = Some l_lossC /\
    l_lossC !! b = Some lossC /\
    h !! "val_dice" = Some l_dice /\ l_dice !! b = Some dice /\
    h !! ("val_diC" +:+ format_f 1 sc) = Some l_diC /\
    l_diC !! b = Some diC /\
    line = metric_line loss sc lossC dice sc diC.
Proof.
  unfold read_metrics. intros H.
  repeat match goal with
    | H : result_bind ?r _ = Ok _ |- _ =>
        let E := fresh "E" in
        destruct r eqn:E; cbn [result_bind] in H; [|done]
    end.
  injection H as <-.
  repeat match goal with
    | E : getitem_key _ _ = Ok _ |- _ => apply getitem_key_Ok in E
    | E : getitem_index _ _ = Ok _ |- _ => apply getitem_index_Ok in E
    end.
  eauto 20.
Qed.

Lemma metric_line_calm (loss sc1 lossC dice sc2 diC : Q) :
  is_footer (metric_line loss sc1 lossC dice sc2 diC +:+ nl) = false.
Proof. reflexivity. Qed.

Lemma best_epoch_line_calm (sc : Q) (h : History) (line : string) :
  best_epoch_line sc h = Ok line -> is_footer (line +:+ nl) = false.
Proof.
  unfold best_epoch_line. intros H.
  destruct (getitem_key h "val_dice"); cbn [result_bind] in H; [|done].
  destruct (np_argmax a); cbn [result_bind] in H; [|done].
  apply read_metrics_Ok in H
    as (?&?&?&?&?&?&?&?&_&_&_&_&_&_&_&_&->).
  apply metric_line_calm.
Qed.

Lemma prefix_append (p s : string) : String.prefix p (p +:+ s) = true.
Proof.
  induction p as [|c p IH]; [by destruct s|]. simpl.
  by destruct (ascii_dec c c).
Qed.

Lemma ending_text_footer (now : string) : is_footer (ending_text now) = true.
Proof.
  unfold is_footer.
  change (ending_text now) with ((nl +:+ "Ending on ") +:+ (now +:+ nl)).
  by rewrite prefix_append.
Qed.

Lemma duration_text_footer (d : Q) : is_footer (duration_text d) = true.
Proof.
  unfold is_footer.
  change (duration_text d)
    with ("Script duration: " +:+ ((duration_msg d +:+ ".") +:+ nl)).
  rewrite prefix_append. apply orb_true_r.
Qed.

Lemma prefix_text_calm (ratio : Q) : is_footer (prefix_text ratio) = false.
Proof. reflexivity. Qed.

Lemma failure_text_calm (e : exception) :
  is_footer (failure_text e +:+ nl) = false.
Proof. reflexivity. Qed.

(** ** The duration message *)

Lemma Qfloor_div_pos (d : Q) (k : positive) :
  Qfloor (d / (Z.pos k # 1)) = Qnum d / Z.pos (Qden d * k).
Proof.
  destruct d as [n p]. unfold Qdiv, Qinv, Qmult, Qfloor. cbn.
  by rewrite Z.mul_1_r.
Qed.

Lemma Qfloor_hours (d : Q) : Qfloor (d / 3600) = Qfloor (d / 60) / 60.
Proof.
  rewrite !Qfloor_div_pos.
  replace (Z.pos (Qden d * 3600)) with (Z.pos (Qden d * 60) * 60)
    by (rewrite !Pos2Z.inj_mul; lia).
  rewrite Z.div_div; [reflexivity|done|lia].
Qed.

(** [n % 60] of an integer-valued float is the integer remainder. *)
Lemma py_mod_inject_Z (z : Z) : py_mod (inject_Z z) 60 = inject_Z (z mod 60).
Proof.
  unfold py_mod. rewrite Qfloor_div_pos. cbn.
  unfold inject_Z, Qminus, Qplus, Qopp, Qmult. cbn.
  f_equal. change (Z.pos (1 * 1)) with 1. change (Z.pos (1 * 60)) with 60.
  rewrite Z.mod_eq by lia. lia.
Qed.

Lemma py_mod_bounds (d : Q) : (0 <= py_mod d 60 < 60)%Q.
Proof.
  unfold py_mod. rewrite Qfloor_div_pos. destruct d as [n p].
  cbn [Qnum Qden].
  pose proof (Z.mul_div_le n (Z.pos (p * 60)) ltac:(lia)) as Hlo.
  pose proof (Z.mul_succ_div_gt n (Z.pos (p * 60)) ltac:(lia)) as Hhi.
  rewrite Pos2Z.inj_mul in Hlo, Hhi.
  unfold Qle, Qlt, inject_Z, Qminus, Qplus, Qopp, Qmult. cbn.
  rewrite ?Pos2Z.inj_mul. split; nia.
Qed.

Lemma duration_decomposition (d : Q) :
  (d == inject_Z (3600 * Qfloor (d / 3600) + 60 * (Qfloor (d / 60) mod 60))
        + py_mod d 60)%Q.
Proof.
  rewrite Qfloor_hours.
  replace (3600 * (Qfloor (d / 60) / 60) + 60 * (Qfloor (d / 60) mod 60))
    with (60 * Qfloor (d / 60))
    by (pose proof (Z.div_mod (Qfloor (d / 60)) 60 ltac:(lia)); lia).
  unfold py_mod. rewrite inject_Z_mult. change (inject_Z 60) with 60%Q.
  ring.
Qed.

Lemma round_half_even_inject_Z (z : Z) : round_half_even (inject_Z z) = z.
Proof.
  unfold round_half_even. rewrite Qfloor_Z.
  assert (inject_Z z - inject_Z z == 0)%Q as -> by ring.
  reflexivity.
Qed.

Lemma sign_of_nonneg (z : Z) : 0 <= z -> sign_of (inject_Z z) = EmptyString.
Proof.
  intros Hz. unfold sign_of, Qcompare, inject_Z. cbn [Qnum Qden].
  destruct (z * 1 ?= 0 * 1) eqn:E; try reflexivity.
  change (z * 1 < 0 * 1) in E. lia.
Qed.

Lemma fixed_digits_0_nonneg (z : Z) :
  0 <= z -> fixed_digits 0 (inject_Z z) = pretty z.
Proof.
  intros Hz. unfold fixed_digits.
  change (Qabs (inject_Z z) * inject_Z (10 ^ Z.of_nat 0))%Q
    with (inject_Z (Z.abs z * 1)).
  rewrite round_half_even_inject_Z. f_equal. lia.
Qed.

(** A non-negative whole number of hours or minutes is printed as its
    decimal numeral. *)
Lemma format_f_0_nonneg (z : Z) :
  0 <= z -> format_f 0 (inject_Z z) = pretty z.
Proof.
  intros Hz. unfold format_f.
  by rewrite sign_of_nonneg, fixed_digits_0_nonneg.
Qed.

Lemma format_0f_2_0_nonneg (z : Z) :
  0 <= z -> format_0f 2 0 (inject_Z z) = zfill 2 (pretty z).
Proof.
  intros Hz. unfold format_0f.
  by rewrite sign_of_nonneg, fixed_digits_0_nonneg.
Qed.

Lemma duration_msg_unfold (d : Q) :
  duration_msg d =
  format_f 0 (inject_Z (Qfloor (d / 3600))) +:+ "h " +:+
  format_0f 2 0 (inject_Z (Qfloor (d / 60) mod 60)) +:+ "min " +:+
  format_0f 2 0 (d - 60 * inject_Z (Qfloor (d / 60)))%Q +:+ "s".
Proof.
  unfold duration_msg.
  change (py_floordiv d 60) with (inject_Z (Qfloor (d / 60))).
  by rewrite py_mod_inject_Z.
Qed.

(** ** The driver, unfolded *)

Section DriverFacts.

Context {World Model : Type} `{!Collaborators World Model}.

Implicit Types (s : state World Model) (e : exception) (ratio : Q).
Implicit Types (t : list (event Model)) (ev : event Model).

Local Open Scope driver_scope.

Lemma report_pure (history : History) (b : nat) s :
  report history b s = (read_metrics (scale_crop (args s)) history b, s).
Proof.
  unfold report, read_metrics, bind, lift, get_args, ret, result_bind.
  repeat match goal with
         | |- context [match ?r with Ok _ => _ | Raise _ => _ end] =>
             destruct r; try reflexivity
         end.
Qed.

Lemma sweep_point_unfold ratio s :
  sweep_point ratio s = sweep_point_nf ratio s.
Proof.
  unfold sweep_point, sweep_point_nf, try_except_RuntimeError, try_body,
    except_body, handled, bind, update_args, print_noend, print, emit,
    get_args, call_CustomUNet, call_run_train, assign_model, lift.
  cbn [args model trace world].
  destruct (CustomUNet _ 4%nat 16%nat true (world s)) as [[m|e] w1];
    cbn [args model trace world];
    [|destruct (isinstance_RuntimeError e); reflexivity].
  destruct (run_train_main _ m w1) as [[[h|e] a2] w2];
    cbn [args model trace world];
    [|destruct (isinstance_RuntimeError e); reflexivity].
  unfold best_epoch_line, result_bind.
  destruct (getitem_key h "val_dice") as [l|e];
    [|destruct (isinstance_RuntimeError e); reflexivity].
  destruct (np_argmax l) as [b|e];
    [|destruct (isinstance_RuntimeError e); reflexivity].
  rewrite report_pure. cbn [args model trace world].
  destruct (read_metrics _ h b) as [line|e];
    [reflexivity|destruct (isinstance_RuntimeError e); reflexivity].
Qed.

Lemma main_unfold (w : World) : main w = main_nf w.
Proof.
  unfold main, main_nf, body, sweeps, footer, footer_state,
    first_sweep_state, second_sweep_state, bind, update_args, print,
    emit, call_time, call_ctime.
  destruct (time_ctime w) as [now w1].
  destruct (time_time w1) as [start_time w2].
  cbn [args model trace world app].
  destruct (for_each sweep_point synth_ratios _) as [[[]|e] s1];
    [|reflexivity].
  cbn [args model trace world].
  destruct (for_each sweep_point synth_ratios _) as [[[]|e] s2];
    [|reflexivity].
  cbn [args model trace world].
  destruct (time_time (world s2)) as [end_time w3].
  cbn [args model trace world].
  destruct (time_ctime w3) as [now' w4].
  cbn [args model trace world].
  by rewrite <- app_assoc.
Qed.

Lemma for_each_cons {A : Type} (f : A -> M unit) (x : A) (l : list A) s :
  for_each f (x :: l) s =
  match f x s with
  | (Ok _, s') => for_each f l s'
  | (Raise e, s') => (Raise e, s')
  end.
Proof. reflexivity. Qed.

(** The invariant rule of the loop: [I] holds while the loop runs, [J] of
    the exception that ends it. *)
Lemma for_each_inv {A : Type} (f : A -> M unit)
    (I : state World Model -> Prop)
    (J : exception -> state World Model -> Prop) (l : list A) :
  (forall x s, x ∈ l -> I s ->
     match f x s with
     | (Ok _, s') => I s'
     | (Raise e, s') => J e s'
     end) ->
  forall s, I s ->
    match for_each f l s with
    | (Ok _, s') => I s'
    | (Raise e, s') => J e s'
    end.
Proof.
  induction l as [|x l IH]; intros Hbody s HI; [exact HI|].
  rewrite for_each_cons.
  pose proof (Hbody x s (list_elem_of_here _ _) HI) as Hx.
  destruct (f x s) as [[[]|e] s']; [|exact Hx].
  apply IH; [|exact Hx].
  intros y s0 Hy. apply Hbody. by apply list_elem_of_further.
Qed.

End DriverFacts.

(** ** Calm traces: what a sweep that is still going has done *)

Section Calm.

Context {World Model : Type} `{!Collaborators World Model}.

Implicit Types (s : state World Model) (e : exception) (ratio : Q).
Implicit Types (t : list (event Model)) (ev : event Model).

Lemma calm_raised ev e :
  raised ev = Some e -> isinstance_RuntimeError e = true -> calm ev.
Proof.
  destruct ev as [text|n d c b [m|e']|a m [h|e']]; simpl; try done;
    intros [= ->] He e0 [= <-]; exact He.
Qed.


Lemma handled_calm e s t0 ev :
  trace s = t0 ++ [ev] -> raised ev = Some e -> Forall calm t0 ->
  match handled e s with
  | (Ok _, s') => Forall calm (trace s')
  | (Raise e', s') => stopped_by e' (trace s')
  end.
Proof.
  intros Ht Hev Hcalm. unfold handled.
  destruct (isinstance_RuntimeError e) eqn:He; cbn [trace].
  - rewrite Ht. apply Forall_app. split; [apply Forall_app; split|].
    + exact Hcalm.
    + repeat constructor. by apply calm_raised with e.
    + repeat constructor.
  - split; [exact He|]. exists t0. split; [exact Hcalm|].
    right. by exists ev.
Qed.

Lemma sweep_point_calm ratio s :
  Forall calm (trace s) ->
  match sweep_point ratio s with
  | (Ok _, s') => Forall calm (trace s')
  | (Raise e, s') => stopped_by e (trace s')
  end.
Proof.
  intros Hcalm. rewrite sweep_point_unfold. unfold sweep_point_nf.
  assert (Forall calm (trace s ++ [Stdout (prefix_text ratio)])) as H1.
  { apply Forall_app. split; [done|]. repeat constructor. }
  destruct (CustomUNet _ _ _ _ _) as [[m|e] w1].
  2: { eapply handled_calm; [reflexivity|reflexivity|exact H1]. }
  match goal with
  | |- context [CallCustomUNet ?n ?d ?c ?b (Ok m)] =>
      assert (Forall calm
                ((trace s ++ [Stdout (prefix_text ratio)]) ++
                 [CallCustomUNet n d c b (Ok m)])) as H2
  end.
  { apply Forall_app. split; [done|]. repeat constructor. done. }
  destruct (run_train_main _ _ _) as [[[h|e] a2] w2].
  2: { eapply handled_calm; [reflexivity|reflexivity|exact H2]. }
  destruct (best_epoch_line _ h) as [line|e] eqn:Hline; cbn [trace].
  - apply Forall_app. split; [apply Forall_app; split|].
    + exact H2.
    + repeat constructor. done.
    + repeat constructor. by eapply best_epoch_line_calm.
  - apply best_epoch_line_Raise in Hline. unfold handled.
    rewrite Hline. split; [done|]. eexists. split; [|by left].
    apply Forall_app. split; [done|]. repeat constructor. done.
Qed.

Lemma for_each_calm (l : list Q) s :
  Forall calm (trace s) ->
  match for_each sweep_point l s with
  | (Ok _, s') => Forall calm (trace s')
  | (Raise e, s') => stopped_by e (trace s')
  end.
Proof.
  intros Hcalm.
  apply (for_each_inv sweep_point (fun s => Forall calm (trace s))
           (fun e s => stopped_by e (trace s))); [|exact Hcalm].
  intros x s0 _. apply sweep_point_calm.
Qed.

(** The outcome of [main]: a calm sweep followed by the footer, or a
    sweep stopped by the exception that [main] raises. *)
Lemma main_calm (w : World) :
  match main w with
  | (Ok _, s) =>
      exists t0 now d,
        Forall calm t0 /\
        trace s = t0 ++ [Stdout (ending_text now);
                         Stdout (duration_text d)]
  | (Raise e, s) => stopped_by e (trace s)
  end.
Proof.
  rewrite main_unfold. unfold main_nf.
  destruct (time_ctime w) as [now w1].
  destruct (time_time w1) as [start_time w2].
  pose proof (for_each_calm synth_ratios (first_sweep_state now w2)) as H1.
  destruct (for_each _ _ (first_sweep_state now w2)) as [[[]|e] s1].
  2: { apply H1. repeat constructor. }
  pose proof (for_each_calm synth_ratios (second_sweep_state s1)) as H2.
  destruct (for_each _ _ (second_sweep_state s1)) as [[[]|e] s2].
  2: { apply H2. cbn [second_sweep_state trace]. apply Forall_app.
       split; [apply H1; repeat constructor|repeat constructor]. }
  unfold footer_state.
  destruct (time_time (world s2)) as [end_time w3].
  destruct (time_ctime w3) as [now' w4]. cbn [trace].
  exists (trace s2), now', (end_time - start_time)%Q. split; [|done].
  apply H2. cbn [second_sweep_state trace]. apply Forall_app.
  split; [apply H1; repeat constructor|repeat constructor].
Qed.

Lemma stdout_of_calm t :
  Forall calm t -> forall text, text ∈ stdout_of t -> is_footer text = false.
Proof.
  intros Hcalm text Hin. unfold stdout_of in Hin.
  apply list_elem_of_omap in Hin as (ev & Hev & Heq).
  rewrite Forall_forall in Hcalm. specialize (Hcalm ev Hev).
  destruct ev; try done. by injection Heq as <-.
Qed.

(** A call that raises outside the [RuntimeError] hierarchy is the last
    thing [main] does. *)
Lemma fatal_call_ends_main (w : World) (r : result unit) s ev e :
  main w = (r, s) -> ev ∈ trace s -> raised ev = Some e ->
  isinstance_RuntimeError e = false ->
  r = Raise e /\ last (trace s) = Some ev /\
  forall text, text ∈ stdout_of (trace s) -> is_footer text = false.
Proof.
  intros Hmain Hin Hev He. pose proof (main_calm w) as Hcalm.
  rewrite Hmain in Hcalm.
  assert (forall t0, Forall calm t0 -> ev ∈ t0 -> False) as Hnot.
  { intros t0 Ht0 Hin0. rewrite Forall_forall in Ht0.
    specialize (Ht0 ev Hin0). destruct ev as [|? ? ? ? []|? ? []];
      simpl in Hev; try done; injection Hev as ->;
      specialize (Ht0 e eq_refl); congruence. }
  destruct r as [[]|e'].
  - destruct Hcalm as (t0 & now & d & Ht0 & Ht). exfalso.
    rewrite Ht in Hin. apply elem_of_app in Hin as [Hin|Hin];
      [by eapply Hnot|].
    apply elem_of_cons in Hin as [->|Hin]; [done|].
    apply elem_of_cons in Hin as [->|Hin]; [done|].
    by apply elem_of_nil in Hin.
  - destruct Hcalm as (He' & t0 & Ht0 & [Ht|(ev' & Ht & Hev')]).
    + exfalso. rewrite Ht in Hin. by eapply Hnot.
    + rewrite Ht in Hin. apply elem_of_app in Hin as [Hin|Hin];
        [exfalso; by eapply Hnot|].
      apply list_elem_of_singleton in Hin as ->.
      assert (e' = e) as -> by congruence.
      split; [done|]. split; [by rewrite Ht, last_snoc|].
      intros text Htext. rewrite Ht in Htext. unfold stdout_of in Htext.
      rewrite omap_app in Htext. apply elem_of_app in Htext as [Htext|Htext].
      * by eapply stdout_of_calm.
      * exfalso. destruct ev' as [|? ? ? ? []|? ? []]; simpl in *;
          try done; by apply elem_of_nil in Htext.
Qed.

End Calm.

(** ** What one sweep point and one sweep add to the trace *)

Section Sweeps.

Context {World Model : Type} `{!Collaborators World Model}.

Implicit Types (s : state World Model) (e : exception) (ratio : Q).
Implicit Types (t : list (event Model)) (ev : event Model).

Lemma stdout_of_app t1 t2 :
  stdout_of (t1 ++ t2) = stdout_of t1 ++ stdout_of t2.
Proof. apply omap_app. Qed.

Lemma constructions_app t1 t2 :
  constructions (t1 ++ t2) = constructions t1 ++ constructions t2.
Proof. apply omap_app. Qed.

Lemma trainings_app t1 t2 :
  trainings (t1 ++ t2) = trainings t1 ++ trainings t2.
Proof. apply omap_app. Qed.

Lemma reads_only_args (Hro : trainer_reads_only)
    (a a2 : script_Arguments) (m : Model) (w w2 : World)
    (r : result History) :
  run_train_main a m w = (r, a2, w2) -> a2 = a.
Proof. intros E. pose proof (Hro a m w) as H. by rewrite E in H. Qed.

Ltac trace_simpl :=
  cbn [trace args handled];
  rewrite ?stdout_of_app, ?constructions_app, ?trainings_app;
  cbn [stdout_of constructions trainings omap list_omap app];
  rewrite ?app_nil_r, <- ?app_assoc; cbn [app].

Lemma sweep_point_events ratio s (r : result unit) s' :
  sweep_point ratio s = (r, s') ->
  let a1 := set_synthetic_ratio (Some ratio) (args s) in
  (exists tr, trainings (trace s') = trainings (trace s) ++ tr /\
              sublist tr [a1]) /\
  constructions (trace s') =
    constructions (trace s) ++
    [(String.length (input_channels (args s)), 4, 16, true)%nat] /\
  (trainer_reads_only -> args s' = a1) /\
  (r = Ok tt ->
   exists ending,
     stdout_of (trace s') =
     stdout_of (trace s) ++ [prefix_text ratio; ending]).
Proof.
  rewrite sweep_point_unfold. unfold sweep_point_nf.
  destruct (CustomUNet _ _ _ _ _) as [[m|e] w1].
  2: { unfold handled. destruct (isinstance_RuntimeError e);
       intros [= <- <-]; trace_simpl;
       (split; [exists []; rewrite app_nil_r; split;
                [done|apply sublist_nil_l]|]);
       (split; [done|]); (split; [done|]); [eauto|done]. }
  destruct (run_train_main _ _ _) as [[[h|e] a2] w2] eqn:Etrain.
  2: { unfold handled. destruct (isinstance_RuntimeError e);
       intros [= <- <-]; trace_simpl;
       (split; [eexists [_]; split; [done|done]|]);
       (split; [done|]);
       (split; [intros Hro; by eapply reads_only_args|]);
       [eauto|done]. }
  destruct (best_epoch_line _ h) as [line|e] eqn:Hline.
  - intros [= <- <-]; trace_simpl.
    split; [eexists [_]; split; [done|done]|].
    split; [done|].
    split; [intros Hro; by eapply reads_only_args|]. eauto.
  - apply best_epoch_line_Raise in Hline. unfold handled. rewrite Hline.
    intros [= <- <-]; trace_simpl.
    split; [eexists [_]; split; [done|done]|].
    split; [done|].
    split; [intros Hro; by eapply reads_only_args|]. done.
Qed.

Lemma for_each_ok_output (l : list Q) s s' :
  for_each sweep_point l s = (Ok tt, s') ->
  exists (endings : list string) (ns : list nat),
    length endings = length l /\ length ns = length l /\
    stdout_of (trace s') = stdout_of (trace s) ++ group_output l endings /\
    constructions (trace s') =
      constructions (trace s) ++ ((fun n => (n, 4, 16, true)%nat) <$> ns).
Proof.
  revert s. induction l as [|ratio l IH]; intros s.
  - intros [= <-]. exists [], []. by rewrite !app_nil_r.
  - rewrite for_each_cons.
    destruct (sweep_point ratio s) as [[[]|e] s1] eqn:Hpoint; [|done].
    intros Hrest.
    destruct (sweep_point_events _ _ _ _ Hpoint)
      as (_ & Hctor & _ & Hout).
    destruct (Hout eq_refl) as [ending Hout1].
    destruct (IH _ Hrest) as (endings & ns & Hlen & Hlen' & Hout2 & Hctor2).
    exists (ending :: endings),
      (String.length (input_channels (args s)) :: ns).
    cbn [length]. rewrite Hlen, Hlen', Hout2, Hout1, Hctor2, Hctor.
    by rewrite <- !app_assoc.
Qed.

Lemma set_synthetic_ratio_twice (v v' : option Q) (a : script_Arguments) :
  set_synthetic_ratio v (set_synthetic_ratio v' a) = set_synthetic_ratio v a.
Proof. reflexivity. Qed.

Lemma sweeping_point_args (c : string) s ratio :
  sweeping c s -> set_synthetic_ratio (Some ratio) (args s) = point_args c ratio.
Proof.
  unfold sweeping, point_args. intros H.
  rewrite <- (set_synthetic_ratio_twice _ None (args s)), H.
  apply set_synthetic_ratio_twice.
Qed.

Lemma sweeping_channels (c : string) s :
  sweeping c s -> input_channels (args s) = c.
Proof. intros H. by apply (f_equal input_channels) in H. Qed.

Lemma for_each_plan (Hro : trainer_reads_only) (c : string)
    (l : list Q) s (r : result unit) s' :
  sweeping c s -> for_each sweep_point l s = (r, s') ->
  sweeping c s' /\
  (exists tr, trainings (trace s') = trainings (trace s) ++ tr /\
              sublist tr (point_args c <$> l)) /\
  (r = Ok tt ->
   constructions (trace s') =
     constructions (trace s) ++
     replicate (length l) (String.length c, 4, 16, true)%nat).
Proof.
  revert s. induction l as [|ratio l IH]; intros s Hs.
  - intros [= <- <-]. split; [done|]. split; [|by rewrite app_nil_r].
    exists []. by rewrite app_nil_r.
  - rewrite for_each_cons.
    destruct (sweep_point ratio s) as [r1 s1] eqn:Hpoint.
    destruct (sweep_point_events _ _ _ _ Hpoint)
      as ((tr1 & Htr1 & Hsub1) & Hctor & Hargs & _).
    specialize (Hargs Hro).
    rewrite (sweeping_point_args c) in Hargs, Hsub1 by done.
    rewrite (sweeping_channels c) in Hctor by done.
    assert (sweeping c s1) as Hs1 by (unfold sweeping; by rewrite Hargs).
    destruct r1 as [[]|e].
    + intros Hrest. destruct (IH _ Hs1 Hrest) as (Hs' & (tr & Htr & Hsub) & Hc).
      split; [done|]. split.
      * exists (tr1 ++ tr). split; [by rewrite Htr, Htr1, app_assoc|].
        change (point_args c <$> ratio :: l)
          with ([point_args c ratio] ++ (point_args c <$> l)).
        by apply sublist_app.
      * intros Hr. rewrite (Hc Hr), Hctor. by rewrite <- app_assoc.
    + intros [= <- <-]. split; [done|]. split; [|done].
      exists tr1. split; [done|].
      change (point_args c <$> ratio :: l)
        with ([point_args c ratio] ++ (point_args c <$> l)).
      rewrite <- (app_nil_r tr1). apply sublist_app; [done|].
      apply sublist_nil_l.
Qed.

Lemma sweeping_first (now : string) (w : World) :
  sweeping "R" (first_sweep_state (Model := Model) now w).
Proof. reflexivity. Qed.

Lemma sweeping_second s : sweeping "R" s -> sweeping "RG" (second_sweep_state s).
Proof.
  unfold sweeping. intros H.
  apply (f_equal (set_input_channels "RG")) in H. exact H.
Qed.

(** Under a trainer that only reads [args], the trainings of [main] follow
    the plan of the sweep, and a run that ends normally has built five
    one-channel models and then five two-channel models. *)
Lemma main_plan (Hro : trainer_reads_only) (w : World) :
  sublist (trainings (trace (main w).2)) sweep_plan /\
  ((main w).1 = Ok tt ->
   constructions (trace (main w).2) =
     replicate 5 (1, 4, 16, true)%nat ++ replicate 5 (2, 4, 16, true)%nat).
Proof.
  rewrite main_unfold. unfold main_nf.
  destruct (time_ctime w) as [now w1].
  destruct (time_time w1) as [start_time w2].
  destruct (for_each _ _ (first_sweep_state now w2)) as [r1 s1] eqn:H1.
  destruct (for_each_plan Hro "R" _ _ _ _ (sweeping_first now w2) H1)
    as (Hs1 & (tr1 & Htr1 & Hsub1) & Hc1).
  cbn [first_sweep_state trace trainings constructions omap list_omap app]
    in Htr1, Hc1.
  destruct r1 as [[]|e]; cbn [fst snd].
  2: { split; [|done]. rewrite Htr1. unfold sweep_plan.
       rewrite <- (app_nil_r tr1). apply sublist_app; [done|].
       apply sublist_nil_l. }
  destruct (for_each _ _ (second_sweep_state s1)) as [r2 s2] eqn:H2.
  destruct (for_each_plan Hro "RG" _ _ _ _ (sweeping_second _ Hs1) H2)
    as (Hs2 & (tr2 & Htr2 & Hsub2) & Hc2).
  cbn [second_sweep_state trace] in Htr2, Hc2.
  rewrite trainings_app, Htr1 in Htr2.
  rewrite constructions_app, (Hc1 eq_refl) in Hc2.
  cbn [trainings constructions omap list_omap app] in Htr2, Hc2.
  rewrite app_nil_r in Htr2, Hc2.
  destruct r2 as [[]|e]; cbn [fst snd].
  2: { split; [|done]. rewrite Htr2. by apply sublist_app. }
  unfold footer_state.
  destruct (time_time (world s2)) as [end_time w3].
  destruct (time_ctime w3) as [now' w4]. cbn [trace].
  rewrite trainings_app, constructions_app, Htr2, (Hc2 eq_refl).
  cbn [trainings constructions omap list_omap app]. rewrite !app_nil_r.
  split; [by apply sublist_app|done].
Qed.

End Sweeps.

(** * The claims *)

Section Claims.

Context {World Model : Type} `{!Collaborators World Model}.

Implicit Types (s : state World Model) (e : exception) (ratio : Q).
Implicit Types (t : list (event Model)) (ev : event Model).

Local Open Scope driver_scope.

Lemma spec_example_argmax (l_dice : list Q) (b : nat) :
  Forall2 Qeq l_dice [1 # 10; 5 # 10; 3 # 10]%Q ->
  np_argmax l_dice = Ok b -> b = 1%nat.
Proof.
  intros H. destruct l_dice as [|x [|y [|z [|]]]];
    try (repeat match goal with
                | H : Forall2 _ _ _ |- _ => inversion H; clear H; subst
                end; fail).
  apply Forall2_cons in H as [Hx H].
  apply Forall2_cons in H as [Hy H].
  apply Forall2_cons in H as [Hz _].
  cbn [np_argmax argmax_from]. unfold Qlt_bool.
  assert (Qle_bool y x = false) as -> by (by rewrite Hx, Hy).
  assert (Qle_bool z y = true) as -> by (by rewrite Hy, Hz).
  cbn [negb]. by intros [= <-].
Qed.

(** C1.  At a sweep point where the trainer returns a history, the best
    epoch is the arg-max of the history's [val_dice] sequence: the value
    there bounds every value of the sequence, and for a sequence equal to
    [[0.1, 0.5, 0.3]] it is index 1.  When the four sequences [val_loss],
    [val_lossC<scale>], [val_dice] and [val_diC<scale>] all have a value
    at that index, the point prints the result line made of exactly
    those four values. *)
Theorem best_epoch_metrics ratio s (m : Model) (w1 w2 : World)
    (h : History) (a2 : script_Arguments) (l_dice : list Q) :
  let a1 := set_synthetic_ratio (Some ratio) (args s) in
  let n := String.length (input_channels a1) in
  CustomUNet n 4 16 true (world s) = (Ok m, w1) ->
  run_train_main a1 m w1 = (Ok h, a2, w2) ->
  h !! "val_dice" = Some l_dice ->
  l_dice <> [] ->
  exists (best_epoch : nat) (dice : Q),
    np_argmax l_dice = Ok best_epoch /\
    l_dice !! best_epoch = Some dice /\
    (forall (j : nat) (x : Q), l_dice !! j = Some x -> (x <= dice)%Q) /\
    (Forall2 Qeq l_dice [1 # 10; 5 # 10; 3 # 10]%Q -> best_epoch = 1%nat) /\
    forall (l_loss l_lossC l_diC : list Q) (loss lossC diC : Q),
      h !! "val_loss" = Some l_loss ->
      l_loss !! best_epoch = Some loss ->
      h !! ("val_lossC" +:+ format_f 1 (scale_crop a2)) = Some l_lossC ->
      l_lossC !! best_epoch = Some lossC ->
      h !! ("val_diC" +:+ format_f 1 (scale_crop a2)) = Some l_diC ->
      l_diC !! best_epoch = Some diC ->
      sweep_point ratio s =
        (Ok tt,
         mkState a2 (Some m)
           (trace s ++
            [Stdout (prefix_text ratio);
             CallCustomUNet n 4 16 true (Ok m);
             CallTrain a1 m (Ok h);
             Stdout (metric_line loss (scale_crop a2) lossC dice
                       (scale_crop a2) diC +:+ nl)]) w2).
Proof.
  intros a1 n Hctor Htrain Hdice Hne.
  destruct l_dice as [|x l]; [done|].
  destruct (np_argmax_first_max x l) as (b & v & Hb & Hv & Hmax).
  exists b, v. split; [exact Hb|]. split; [exact Hv|].
  split; [intros j y Hj; exact (proj1 (Hmax j y Hj))|].
  split; [intros Hex; by eapply spec_example_argmax|].
  intros l_loss l_lossC l_diC loss lossC diC H1 H2 H3 H4 H5 H6.
  rewrite sweep_point_unfold. unfold sweep_point_nf.
  fold a1. fold n. rewrite Hctor, Htrain.
  unfold best_epoch_line, read_metrics, getitem_key, getitem_index.
  rewrite Hdice. cbn [result_bind]. rewrite Hb. cbn [result_bind].
  rewrite H1. cbn [result_bind]. rewrite H2. cbn [result_bind].
  rewrite H3. cbn [result_bind]. rewrite H4. cbn [result_bind].
  rewrite Hv. cbn [result_bind].
  rewrite H5. cbn [result_bind]. rewrite H6. cbn [result_bind].
  by rewrite <- !app_assoc.
Qed.

(** C2.  When the trainer raises a [RuntimeError] at a sweep point, the
    point completes the line [synth_ratio=<ratio> | RuntimeError
    (<message>)] and ends normally; whatever follows the point -- the
    remaining points of the loop and the continuation [k], which for the
    first loop holds the whole second loop -- runs from the state the
    point leaves.  No [RuntimeError] ever ends [main]. *)
Theorem trainer_RuntimeError_recovered ratio (rest : list Q)
    (k : M unit) s (m : Model) (w1 w2 : World) e
    (a2 : script_Arguments) :
  let a1 := set_synthetic_ratio (Some ratio) (args s) in
  let n := String.length (input_channels a1) in
  CustomUNet n 4 16 true (world s) = (Ok m, w1) ->
  run_train_main a1 m w1 = (Raise e, a2, w2) ->
  isinstance_RuntimeError e = true ->
  let s' :=
    mkState a2 (Some m)
      (trace s ++
       [Stdout ("synth_ratio=" +:+ ljust 4 (float_str ratio));
        CallCustomUNet n 4 16 true (Ok m);
        CallTrain a1 m (Raise e);
        Stdout ((" | RuntimeError (" +:+ exc_str e +:+ ")") +:+ nl)]) w2 in
  sweep_point ratio s = (Ok tt, s') /\
  (for_each sweep_point (ratio :: rest) ;; k) s =
    (for_each sweep_point rest ;; k) s' /\
  forall (w : World) (e' : exception) (s_end : state World Model),
    main w = (Raise e', s_end) -> isinstance_RuntimeError e' = false.
Proof.
  intros a1 n Hctor Htrain He s'.
  assert (sweep_point ratio s = (Ok tt, s')) as Hpoint.
  { rewrite sweep_point_unfold. unfold sweep_point_nf.
    fold a1. fold n. rewrite Hctor, Htrain. unfold handled.
    rewrite He. cbn [args model trace world]. unfold s'.
    by rewrite <- !app_assoc. }
  split; [exact Hpoint|]. split.
  - unfold bind. by rewrite for_each_cons, Hpoint.
  - intros w e' s_end Hmain. pose proof (main_calm w) as Hcalm.
    rewrite Hmain in Hcalm. apply Hcalm.
Qed.

(** C3.  A trainer call that raises outside the [RuntimeError] hierarchy
    ends [main]: [main] raises that exception, the call is the last
    event of the run, and no line of the footer -- neither [Ending on
    ...] nor [Script duration: ...] -- is among the text printed. *)
Theorem trainer_fatal_error_ends_sweep (w : World) (r : result unit) s
    (a : script_Arguments) (m : Model) e :
  main w = (r, s) ->
  CallTrain a m (Raise e) ∈ trace s ->
  isinstance_RuntimeError e = false ->
  r = Raise e /\
  last (trace s) = Some (CallTrain a m (Raise e)) /\
  (forall text, text ∈ stdout_of (trace s) -> is_footer text = false) /\
  (forall now d, is_footer (ending_text now) = true /\
                 is_footer (duration_text d) = true).
Proof.
  intros Hmain Hin He.
  destruct (fatal_call_ends_main w r s _ e Hmain Hin eq_refl He)
    as (Hr & Hlast & Hfooter).
  repeat split; auto using ending_text_footer, duration_text_footer.
Qed.

(** C4, amended.  An exception of model construction outside the
    [RuntimeError] hierarchy is fatal: [main] raises it, the
    construction is the last event of the run, and no line of the footer
    is printed. *)
Theorem construction_fatal_error_ends_sweep (w : World) (r : result unit)
    s (n d c : nat) (b : bool) e :
  main w = (r, s) ->
  CallCustomUNet n d c b (Raise e) ∈ trace s ->
  isinstance_RuntimeError e = false ->
  r = Raise e /\
  last (trace s) = Some (CallCustomUNet n d c b (Raise e)) /\
  (forall text, text ∈ stdout_of (trace s) -> is_footer text = false).
Proof.
  intros Hmain Hin He.
  exact (fatal_call_ends_main w r s _ e Hmain Hin eq_refl He).
Qed.

(** C10.  When model construction raises a [RuntimeError] at a sweep
    point, the point adds three events to the trace -- its prefix, the
    failed construction and the failure line -- so the trainer is not
    called, and the local [model] stays what it was; the point ends
    normally and whatever follows it runs from the state it leaves. *)
Theorem construction_RuntimeError_skips_trainer ratio (rest : list Q)
    (k : M unit) s (w1 : World) e :
  let a1 := set_synthetic_ratio (Some ratio) (args s) in
  let n := String.length (input_channels a1) in
  CustomUNet n 4 16 true (world s) = (Raise e, w1) ->
  isinstance_RuntimeError e = true ->
  let s' :=
    mkState a1 (model s)
      (trace s ++
       [Stdout ("synth_ratio=" +:+ ljust 4 (float_str ratio));
        CallCustomUNet n 4 16 true (Raise e);
        Stdout ((" | RuntimeError (" +:+ exc_str e +:+ ")") +:+ nl)]) w1 in
  sweep_point ratio s = (Ok tt, s') /\
  trainings (trace s') = trainings (trace s) /\
  (for_each sweep_point (ratio :: rest) ;; k) s =
    (for_each sweep_point rest ;; k) s'.
Proof.
  intros a1 n Hctor He s'.
  assert (sweep_point ratio s = (Ok tt, s')) as Hpoint.
  { rewrite sweep_point_unfold. unfold sweep_point_nf.
    fold a1. fold n. rewrite Hctor. unfold handled.
    rewrite He. cbn [args model trace world]. unfold s'.
    by rewrite <- !app_assoc. }
  split; [exact Hpoint|]. split.
  - unfold s'. cbn [trace]. rewrite trainings_app.
    cbn. by rewrite app_nil_r.
  - unfold bind. by rewrite for_each_cons, Hpoint.
Qed.

Lemma main_ok_inv (w : World) s :
  main w = (Ok tt, s) ->
  exists (now : string) (start_time : Q) (w2 : World)
         (s1 s2 : state World Model),
    time_time (time_ctime w).2 = (start_time, w2) /\
    now = (time_ctime w).1 /\
    for_each sweep_point synth_ratios (first_sweep_state now w2)
      = (Ok tt, s1) /\
    for_each sweep_point synth_ratios (second_sweep_state s1)
      = (Ok tt, s2) /\
    s = footer_state start_time s2.
Proof.
  rewrite main_unfold. unfold main_nf.
  destruct (time_ctime w) as [now w1]. cbn [fst snd].
  destruct (time_time w1) as [start_time w2].
  destruct (for_each _ _ (first_sweep_state now w2)) as [[[]|e] s1] eqn:H1;
    [|done].
  destruct (for_each _ _ (second_sweep_state s1)) as [[[]|e] s2] eqn:H2;
    [|done].
  intros [= <-]. by exists now, start_time, w2, s1, s2.
Qed.

Lemma sweep_point_completed ratio s s' :
  sweep_point ratio s = (Ok tt, s') ->
  exists seg : list (event Model),
    trace s' = trace s ++ seg /\
    completed_point (set_synthetic_ratio (Some ratio) (args s))
      (scale_crop (args s')) ratio seg.
Proof.
  rewrite sweep_point_unfold. unfold sweep_point_nf.
  destruct (CustomUNet _ _ _ _ _) as [[m|e] w1].
  2: { unfold handled. destruct (isinstance_RuntimeError e) eqn:He; [|done].
       intros [= <-]. cbn [trace args]. eexists.
       split; [by rewrite <- !app_assoc|].
       exact (point_without_model _ _ _ e He). }
  destruct (run_train_main _ _ _) as [[[h|e] a2] w2].
  2: { unfold handled. destruct (isinstance_RuntimeError e) eqn:He; [|done].
       intros [= <-]. cbn [trace args]. eexists.
       split; [by rewrite <- !app_assoc|].
       exact (point_without_history _ _ _ m e He). }
  destruct (best_epoch_line _ h) as [line|e] eqn:Hline.
  - intros [= <-]. cbn [trace args]. eexists.
    split; [by rewrite <- !app_assoc|].
    exact (point_with_result _ _ _ m h line Hline).
  - apply best_epoch_line_Raise in Hline. unfold handled. by rewrite Hline.
Qed.

Lemma for_each_completed (l : list Q) s s' :
  for_each sweep_point l s = (Ok tt, s') ->
  exists segs : list (list (event Model)),
    trace s' = trace s ++ concat segs /\
    Forall2 (fun ratio seg =>
               exists (a : script_Arguments) (sc : Q),
                 synthetic_ratio a = Some ratio /\
                 completed_point a sc ratio seg) l segs /\
    (trainer_reads_only ->
     forall c : string, sweeping c s ->
       Forall2 (fun ratio seg =>
                  completed_point (point_args c ratio) 4 ratio seg) l segs).
Proof.
  revert s. induction l as [|ratio l IH]; intros s.
  - intros [= <-]. exists []. cbn. rewrite app_nil_r.
    split; [done|]. split; [constructor|]. intros _ c _. constructor.
  - rewrite for_each_cons.
    destruct (sweep_point ratio s) as [[[]|e] s1] eqn:Hpoint; [|done].
    intros Hrest.
    destruct (sweep_point_completed _ _ _ Hpoint) as (seg & Hseg & Hdone).
    destruct (sweep_point_events _ _ _ _ Hpoint) as (_ & _ & Hargs & _).
    destruct (IH _ Hrest) as (segs & Hsegs & Hall & Hro_all).
    exists (seg :: segs). cbn [concat].
    split; [by rewrite Hsegs, Hseg, <- app_assoc|]. split.
    + constructor; [|exact Hall].
      exists (set_synthetic_ratio (Some ratio) (args s)),
        (scale_crop (args s1)).
      split; [reflexivity|exact Hdone].
    + intros Hro c Hs. specialize (Hargs Hro).
      rewrite (sweeping_point_args c) in Hargs, Hdone by done.
      rewrite Hargs in Hdone.
      constructor; [exact Hdone|]. apply Hro_all; [exact Hro|].
      unfold sweeping. by rewrite Hargs.
Qed.

(** C5.  A run of [main] that ends normally has printed, after the banner
    and the data-augmentation line, the header [Input channels: R], then
    for each ratio of [synth_ratios] in order its prefix and the rest of
    its line, then the header [Input channels: RG] and the same five
    points again, then the footer; and it has constructed ten models,
    all of depth 4 with 16 first-stage channels and batch normalization.
    Its trace is exactly: the three opening prints, one completed sweep
    point per ratio in order, the second header, one completed sweep
    point per ratio in order, the two footer prints -- where a completed
    point constructs one model and, unless that construction failed with
    a [RuntimeError], calls the trainer exactly once on the configuration
    of the point, whose [synthetic_ratio] is the ratio of the point.
    When the trainer leaves [args] alone, the constructions are five with
    one input channel followed by five with two, the configuration of
    each point is that of its (channels, ratio) pair, and the trainer's
    calls follow the plan of the sweep. *)
Theorem one_run_per_pair (w : World) s :
  main w = (Ok tt, s) ->
  exists (now now' : string) (d : Q) (endsR endsRG : list string)
         (nsR nsRG : list nat) (segsR segsRG : list (list (event Model))),
    length endsR = 5%nat /\ length endsRG = 5%nat /\
    length nsR = 5%nat /\ length nsRG = 5%nat /\
    stdout_of (trace s) =
      [banner_text now;
       ("Data augmentation is enabled." +:+ nl) +:+ nl;
       "Input channels: R" +:+ nl] ++
      group_output [0; 1 # 4; 1 # 2; 3 # 4; 1]%Q endsR ++
      [(nl +:+ "Input channels: RG") +:+ nl] ++
      group_output [0; 1 # 4; 1 # 2; 3 # 4; 1]%Q endsRG ++
      [ending_text now'; duration_text d] /\
    constructions (trace s) =
      ((fun n => (n, 4, 16, true)%nat) <$> (nsR ++ nsRG)) /\
    trace s =
      [Stdout (banner_text now);
       Stdout (("Data augmentation is enabled." +:+ nl) +:+ nl);
       Stdout ("Input channels: R" +:+ nl)] ++
      concat segsR ++
      [Stdout ((nl +:+ "Input channels: RG") +:+ nl)] ++
      concat segsRG ++
      [Stdout (ending_text now'); Stdout (duration_text d)] /\
    Forall2 (fun ratio seg =>
               exists (a : script_Arguments) (sc : Q),
                 synthetic_ratio a = Some ratio /\
                 completed_point a sc ratio seg)
      [0; 1 # 4; 1 # 2; 3 # 4; 1]%Q segsR /\
    Forall2 (fun ratio seg =>
               exists (a : script_Arguments) (sc : Q),
                 synthetic_ratio a = Some ratio /\
                 completed_point a sc ratio seg)
      [0; 1 # 4; 1 # 2; 3 # 4; 1]%Q segsRG /\
    (trainer_reads_only ->
     constructions (trace s) =
       replicate 5 (1, 4, 16, true)%nat ++
       replicate 5 (2, 4, 16, true)%nat /\
     sublist (trainings (trace s)) sweep_plan /\
     Forall2 (fun ratio seg =>
                completed_point (point_args "R" ratio) 4 ratio seg)
       [0; 1 # 4; 1 # 2; 3 # 4; 1]%Q segsR /\
     Forall2 (fun ratio seg =>
                completed_point (point_args "RG" ratio) 4 ratio seg)
       [0; 1 # 4; 1 # 2; 3 # 4; 1]%Q segsRG).
Proof.
  intros Hmain.
  destruct (main_ok_inv w s Hmain)
    as (now & start_time & w2 & s1 & s2 & _ & _ & H1 & H2 & ->).
  destruct (for_each_ok_output _ _ _ H1)
    as (endsR & nsR & HlenR & HlenR' & HoutR & HctorR).
  destruct (for_each_ok_output _ _ _ H2)
    as (endsRG & nsRG & HlenRG & HlenRG' & HoutRG & HctorRG).
  destruct (for_each_completed _ _ _ H1) as (segsR & HsegsR & HallR & HroR).
  destruct (for_each_completed _ _ _ H2)
    as (segsRG & HsegsRG & HallRG & HroRG).
  unfold footer_state.
  destruct (time_time (world s2)) as [end_time w3] eqn:Hend.
  destruct (time_ctime w3) as [now' w4] eqn:Hnow. cbn [trace].
  exists now, now', (end_time - start_time)%Q, endsR, endsRG, nsR, nsRG,
    segsR, segsRG.
  repeat (split; [done|]). split; [|split; [|split; [|split; [|split]]]].
  - rewrite stdout_of_app, HoutRG. cbn [second_sweep_state trace].
    rewrite stdout_of_app, HoutR. cbn. by rewrite <- !app_assoc.
  - rewrite constructions_app, HctorRG. cbn [second_sweep_state trace].
    rewrite constructions_app, HctorR. cbn. rewrite !app_nil_r.
    by rewrite fmap_app.
  - rewrite HsegsRG. cbn [second_sweep_state trace]. rewrite HsegsR.
    cbn [first_sweep_state trace]. by rewrite <- !app_assoc.
  - exact HallR.
  - exact HallRG.
  - intros Hro. pose proof (main_plan Hro w) as Hplan.
    rewrite Hmain in Hplan. cbn [fst snd] in Hplan.
    unfold footer_state in Hplan. rewrite Hend, Hnow in Hplan.
    cbn [trace] in Hplan. destruct Hplan as [Hsub Hctor].
    split; [by apply Hctor|]. split; [exact Hsub|].
    assert (sweeping "R" s1) as Hs1.
    { by destruct (for_each_plan Hro "R" _ _ _ _
                     (sweeping_first now w2) H1) as [Hs1 _]. }
    split.
    + apply (HroR Hro). apply sweeping_first.
    + apply (HroRG Hro). by apply sweeping_second.
Qed.

Lemma same_unswept_point_args (c : string) (r : Q) :
  same_unswept (point_args c r) sweep_start_args.
Proof. repeat split. Qed.

Lemma same_unswept_trans_sym (a b c : script_Arguments) :
  same_unswept a c -> same_unswept b c -> same_unswept a b.
Proof.
  unfold same_unswept. intros Ha Hb.
  repeat match goal with H : _ /\ _ |- _ => destruct H end.
  repeat split; congruence.
Qed.

Lemma sweep_plan_elem (a : script_Arguments) :
  a ∈ sweep_plan ->
  exists c r, c ∈ ["R"; "RG"] /\ r ∈ synth_ratios /\ a = point_args c r.
Proof.
  unfold sweep_plan. intros [H|H]%elem_of_app;
    apply list_elem_of_fmap in H as (r & -> & Hr).
  - exists "R", r. split; [|done]. apply list_elem_of_here.
  - exists "RG", r. split; [|done].
    apply list_elem_of_further, list_elem_of_here.
Qed.

(** C6.  The configuration a sweep point hands to the trainer is the one
    the point found, with [synthetic_ratio] overwritten and nothing else.
    When the trainer leaves the [args] object as it found it, every
    configuration the trainer is called with, in any run of [main],
    agrees with the configuration at the start of the sweeps on all
    fields but [input_channels] and [synthetic_ratio], which hold one of
    the two channel specifiers and one of the ratios; so two consecutive
    trainer calls differ in those two fields at most. *)
Theorem unswept_fields_frozen (w : World) :
  (forall ratio s,
     exists tr : list script_Arguments,
       trainings (trace (sweep_point ratio s).2) = trainings (trace s) ++ tr /\
       forall a : script_Arguments,
         a ∈ tr ->
         same_unswept a (args s) /\
         input_channels a = input_channels (args s) /\
         synthetic_ratio a = Some ratio) /\
  (trainer_reads_only ->
   (forall a : script_Arguments,
      a ∈ trainings (trace (main w).2) ->
      same_unswept a sweep_start_args /\
      input_channels a ∈ ["R"; "RG"] /\
      exists r, r ∈ synth_ratios /\ synthetic_ratio a = Some r) /\
   (forall (i : nat) (a a' : script_Arguments),
      trainings (trace (main w).2) !! i = Some a ->
      trainings (trace (main w).2) !! S i = Some a' ->
      same_unswept a a')).
Proof.
  split.
  { intros ratio s.
    destruct (sweep_point ratio s) as [r s'] eqn:Hpoint.
    destruct (sweep_point_events _ _ _ _ Hpoint) as ((tr & Htr & Hsub) & _).
    exists tr. split; [exact Htr|].
    intros a Ha. pose proof (elem_of_sublist _ _ _ Ha Hsub) as Hin.
    apply list_elem_of_singleton in Hin as ->. repeat split. }
  intros Hro. destruct (main_plan Hro w) as [Hsub _].
  assert (forall a : script_Arguments,
            a ∈ trainings (trace (main w).2) ->
            exists c r, c ∈ ["R"; "RG"] /\ r ∈ synth_ratios /\
                        a = point_args c r) as Hplan.
  { intros a Ha. apply sweep_plan_elem. by eapply elem_of_sublist. }
  split.
  - intros a Ha. destruct (Hplan a Ha) as (c & r & Hc & Hr & ->).
    split; [apply same_unswept_point_args|]. split; [exact Hc|].
    by exists r.
  - intros i a a' Hi Hi'.
    destruct (Hplan a (list_elem_of_lookup_2 _ _ _ Hi))
      as (c & r & _ & _ & ->).
    destruct (Hplan a' (list_elem_of_lookup_2 _ _ _ Hi'))
      as (c' & r' & _ & _ & ->).
    eapply same_unswept_trans_sym; apply same_unswept_point_args.
Qed.

(** C7.  Every sweep point, right after its prefix, constructs a model
    with as many input channels as the configuration's channel specifier
    has characters (one for ["R"], two for ["RG"]), depth 4, 16
    first-stage channels and batch normalization; it constructs no other
    model, and if it calls the trainer the call comes next, once, on the
    model just constructed and with the same channel specifier. *)
Theorem fresh_model_per_point ratio s :
  let n := String.length (input_channels (args s)) in
  exists (r : result Model) (t' : list (event Model)),
    trace (sweep_point ratio s).2 =
      trace s ++
      Stdout (prefix_text ratio) :: CallCustomUNet n 4 16 true r :: t' /\
    constructions t' = [] /\
    (forall (a : script_Arguments) (m : Model) (r' : result History),
       CallTrain a m r' ∈ t' ->
       r = Ok m /\ input_channels a = input_channels (args s) /\
       exists t'', t' = CallTrain a m r' :: t'' /\ trainings t'' = []) /\
    (input_channels (args s) = "R" -> n = 1%nat) /\
    (input_channels (args s) = "RG" -> n = 2%nat).
Proof.
  intros n. rewrite sweep_point_unfold. unfold sweep_point_nf.
  cbn [input_channels set_synthetic_ratio]. fold n.
  assert ((input_channels (args s) = "R" -> n = 1%nat) /\
          (input_channels (args s) = "RG" -> n = 2%nat)) as Hlen.
  { unfold n. split; by intros ->. }
  destruct (CustomUNet n 4 16 true (world s)) as [[m|e] w1].
  2: { exists (Raise e). unfold handled.
       destruct (isinstance_RuntimeError e); cbn [trace snd];
         eexists; (split; [by rewrite <- !app_assoc|]);
         (split; [done|]); (split; [|exact Hlen]);
         intros a m r'; cbn [app]; rewrite ?elem_of_cons;
         intros Hin; destruct_or?; try done;
         by apply elem_of_nil in Hin. }
  exists (Ok m).
  destruct (run_train_main _ m w1) as [[[h|e] a2] w2].
  2: { unfold handled.
       destruct (isinstance_RuntimeError e); cbn [trace snd];
         eexists; (split; [by rewrite <- !app_assoc|]);
         (split; [done|]); (split; [|exact Hlen]);
         intros a m' r'; cbn [app]; rewrite ?elem_of_cons;
         intros Hin; destruct_or?; try done;
         try (by apply elem_of_nil in Hin);
         injection Hin as -> -> ->; eauto. }
  destruct (best_epoch_line _ h) as [line|e] eqn:Hline.
  - cbn [trace snd]. eexists. split; [by rewrite <- !app_assoc|].
    split; [done|]. split; [|exact Hlen].
    intros a m' r'. cbn [app]. rewrite !elem_of_cons.
    intros Hin; destruct_or?; try done;
      try (by apply elem_of_nil in Hin).
    injection Hin as -> -> ->. eauto.
  - apply best_epoch_line_Raise in Hline. unfold handled. rewrite Hline.
    cbn [trace snd]. eexists. split; [by rewrite <- !app_assoc|].
    split; [done|]. split; [|exact Hlen].
    intros a m' r'. cbn [app]. rewrite list_elem_of_singleton.
    intros Hin. injection Hin as -> -> ->. eauto.
Qed.

(** C9.  For every non-empty [val_dice] sequence [np.argmax] returns the
    smallest index at which the sequence takes its maximum: the value at
    that index bounds every value of the sequence, and every index that
    holds an equal value is at least as large. *)
Theorem best_epoch_is_earliest (x : Q) (l : list Q) :
  exists (best_epoch : nat) (v : Q),
    np_argmax (x :: l) = Ok best_epoch /\
    (x :: l) !! best_epoch = Some v /\
    forall (j : nat) (y : Q), (x :: l) !! j = Some y ->
      (y <= v)%Q /\ (y == v -> (best_epoch <= j)%nat).
Proof.
  destruct (np_argmax_first_max x l) as (b & v & Hb & Hv & Hmax).
  by exists b, v.
Qed.

(** C8.  A run of [main] that ends normally ends its output with the line
    [Ending on <time>] and the line [Script duration: <H>h <M>min <S>s.],
    where, for [d] the clock reading after the last run minus the reading
    taken before the first one, [H] is the [.0f] rendering of
    [floor (d / 3600)], [M] the [02.0f] rendering of
    [floor (d / 60) mod 60] and [S] the [02.0f] rendering of [d mod 60];
    nothing printed before is a footer line.  The three parts add up to
    [d], minutes and seconds lie in [[0, 60)], whole minutes print as
    their two-digit numeral, and for a non-negative [d] the hours are
    non-negative and print as their numeral. *)
Theorem footer_duration (w : World) s :
  main w = (Ok tt, s) ->
  exists (t0 : list (event Model)) (now : string)
         (start_time end_time : Q) (w2 w_end w3 : World),
    time_time (time_ctime w).2 = (start_time, w2) /\
    time_time w_end = (end_time, w3) /\
    time_ctime w3 = (now, world s) /\
    let d := (end_time - start_time)%Q in
    let hours := Qfloor (d / 3600) in
    let minutes := Qfloor (d / 60) mod 60 in
    let seconds := (d - 60 * inject_Z (Qfloor (d / 60)))%Q in
    trace s =
      t0 ++
      [Stdout ((nl +:+ "Ending on " +:+ now) +:+ nl);
       Stdout (("Script duration: " +:+
                (format_f 0 (inject_Z hours) +:+ "h " +:+
                 format_0f 2 0 (inject_Z minutes) +:+ "min " +:+
                 format_0f 2 0 seconds +:+ "s") +:+ ".") +:+ nl)] /\
    (forall text, text ∈ stdout_of t0 -> is_footer text = false) /\
    (d == inject_Z (3600 * hours + 60 * minutes) + seconds)%Q /\
    0 <= minutes < 60 /\ (0 <= seconds < 60)%Q /\
    format_0f 2 0 (inject_Z minutes) = zfill 2 (pretty minutes) /\
    ((0 <= d)%Q ->
     0 <= hours /\ format_f 0 (inject_Z hours) = pretty hours).
Proof.
  intros Hmain.
  destruct (main_ok_inv w s Hmain)
    as (now0 & start_time & w2 & s1 & s2 & Hstart & _ & H1 & H2 & ->).
  pose proof (main_calm w) as Hcalm. rewrite Hmain in Hcalm.
  destruct Hcalm as (t0 & now' & d' & Hcalm & Htrace).
  unfold footer_state in *.
  destruct (time_time (world s2)) as [end_time w3] eqn:Hend.
  destruct (time_ctime w3) as [now w4] eqn:Hnow. cbn [trace world] in *.
  apply app_inj_2 in Htrace as [<- _]; [|reflexivity].
  exists (trace s2), now, start_time, end_time, w2, (world s2), w3.
  split; [exact Hstart|]. split; [exact Hend|]. split; [exact Hnow|].
  cbv zeta.
  set (d := (end_time - start_time)%Q).
  set (hours := Qfloor (d / 3600)).
  set (minutes := Qfloor (d / 60) mod 60).
  assert (0 <= minutes < 60) as Hmin by (apply Z.mod_pos_bound; lia).
  split.
  { unfold duration_text. by rewrite duration_msg_unfold. }
  split; [by apply stdout_of_calm|].
  split; [apply duration_decomposition|].
  split; [exact Hmin|].
  split; [apply py_mod_bounds|].
  split; [apply format_0f_2_0_nonneg; lia|].
  intros Hd.
  assert (0 <= hours) as Hh.
  { unfold hours. change 0 with (Qfloor 0). apply Qfloor_resp_le.
    apply Qle_shift_div_l; [reflexivity|]. by rewrite Qmult_0_l. }
  split; [exact Hh|by apply format_f_0_nonneg].
Qed.

End Claims.

(** * The claims on the scripted world *)

Import Scripted Scenarios.

Lemma scripted_reads_only : trainer_reads_only (Collaborators0 := scripted).
Proof. intros a m w. cbn. by destruct (train_script w). Qed.

Lemma main_pair (w : World) : main w = ((main w).1, (main w).2).
Proof. by destruct (main w). Qed.

(** At the example history the best epoch is 1 and the line shows the
    values of index 1. *)
Lemma best_epoch_metrics_witness :
  example_history !! "val_dice" = Some [1 # 10; 5 # 10; 3 # 10]%Q /\
  np_argmax [1 # 10; 5 # 10; 3 # 10]%Q = Ok 1%nat /\
  stdout_of (trace (sweep_point 0 s_example).2) =
    stdout_of (trace s_example) ++
    ["synth_ratio=0.0 ";
     " | loss=0.400000 - lossC4.0=0.300000 - dice=0.500000 - diC4.0=0.550000"
       +:+ nl].
Proof.
  split; [reflexivity|].
  destruct (best_epoch_metrics 0%Q s_example O
              (mkWorld 0 1 [] [Ok example_history]) (mkWorld 0 1 [] [])
              example_history
              (set_synthetic_ratio (Some 0%Q) sweep_start_args)
              [1 # 10; 5 # 10; 3 # 10]%Q)
    as (b & dice & Hb & Hdice & _ & Hone & Hline);
    [reflexivity|reflexivity|reflexivity|discriminate|].
  assert (b = 1%nat) as ->
    by (apply Hone; repeat constructor; reflexivity).
  split; [exact Hb|].
  injection Hdice as <-.
  rewrite (Hline [9 # 10; 4 # 10; 5 # 10]%Q [8 # 10; 3 # 10; 35 # 100]%Q
             [15 # 100; 55 # 100; 35 # 100]%Q (4 # 10)%Q (3 # 10)%Q
             (55 # 100)%Q eq_refl eq_refl eq_refl eq_refl eq_refl eq_refl).
  reflexivity.
Defined.

(** The trainer runs out of memory at the first point: the line is
    completed with the failure text and the point ends normally. *)
Lemma trainer_RuntimeError_recovered_witness :
  isinstance_RuntimeError out_of_memory = true /\
  (sweep_point 0 s_train_oom).1 = Ok tt /\
  stdout_of (trace (sweep_point 0 s_train_oom).2) =
    stdout_of (trace s_train_oom) ++
    ["synth_ratio=0.0 "; " | RuntimeError (CUDA out of memory)" +:+ nl].
Proof.
  split; [reflexivity|].
  destruct (trainer_RuntimeError_recovered 0%Q [] (ret tt) s_train_oom O
              (mkWorld 0 1 [] [Raise out_of_memory]) (mkWorld 0 1 [] [])
              out_of_memory
              (set_synthetic_ratio (Some 0%Q) sweep_start_args))
    as (Hpoint & _ & _); [reflexivity|reflexivity|reflexivity|].
  rewrite Hpoint. split; reflexivity.
Defined.

(** The trainer is interrupted at the third point: [main] raises the
    interrupt and prints no footer. *)
Lemma trainer_fatal_error_ends_sweep_witness :
  (main w_train_interrupted).1 = Raise interrupted /\
  last (trace (main w_train_interrupted).2) =
    Some (CallTrain (point_args "R" (1 # 2)) O (Raise interrupted)) /\
  forall text, text ∈ stdout_of (trace (main w_train_interrupted).2) ->
    is_footer text = false.
Proof.
  destruct (trainer_fatal_error_ends_sweep w_train_interrupted
              (main w_train_interrupted).1 (main w_train_interrupted).2
              (point_args "R" (1 # 2)) O interrupted)
    as (Hr & Hlast & Hfooter & _).
  - apply main_pair.
  - apply list_elem_of_lookup_2 with 13%nat. vm_compute. reflexivity.
  - reflexivity.
  - repeat split; assumption.
Defined.

(** C4 as stated fails: in the scripted world whose second model
    construction runs out of memory, a construction raises, yet [main]
    ends normally and prints its footer. *)
Lemma construction_error_not_always_fatal :
  ~ (forall (w : World) (r : result unit) (s : state World Model)
            (n d c : nat) (b : bool) (e : exception),
       main w = (r, s) ->
       CallCustomUNet n d c b (Raise e) ∈ trace s ->
       r = Raise e /\
       forall text, text ∈ stdout_of (trace s) -> is_footer text = false).
Proof.
  intros H.
  destruct (H w_ctor_oom (main w_ctor_oom).1 (main w_ctor_oom).2
              1%nat 4%nat 16%nat true out_of_memory) as [Hr _].
  - apply main_pair.
  - apply list_elem_of_lookup_2 with 8%nat. vm_compute. reflexivity.
  - vm_compute in Hr. discriminate Hr.
Qed.

(** Model construction fails with a [ValueError] at the second point. *)
Lemma construction_fatal_error_ends_sweep_witness :
  (main w_ctor_fatal).1 = Raise (Exception ValueError "bad depth") /\
  last (trace (main w_ctor_fatal).2) =
    Some (CallCustomUNet 1 4 16 true
            (Raise (Exception ValueError "bad depth"))) /\
  forall text, text ∈ stdout_of (trace (main w_ctor_fatal).2) ->
    is_footer text = false.
Proof.
  apply (construction_fatal_error_ends_sweep w_ctor_fatal
           (main w_ctor_fatal).1 (main w_ctor_fatal).2
           1%nat 4%nat 16%nat true (Exception ValueError "bad depth")).
  - apply main_pair.
  - apply list_elem_of_lookup_2 with 8%nat. vm_compute. reflexivity.
  - reflexivity.
Defined.

(** Every run succeeds: ten constructions, and the trainings follow the
    plan. *)
Lemma one_run_per_pair_witness :
  (main w_all_ok).1 = Ok tt /\
  trainings (trace (main w_all_ok).2) = sweep_plan /\
  constructions (trace (main w_all_ok).2) =
    replicate 5 (1, 4, 16, true)%nat ++ replicate 5 (2, 4, 16, true)%nat /\
  sublist (trainings (trace (main w_all_ok).2)) sweep_plan.
Proof.
  split; [vm_compute; reflexivity|].
  split; [vm_compute; reflexivity|].
  destruct (one_run_per_pair w_all_ok (main w_all_ok).2)
    as (? & ? & ? & ? & ? & ? & ? & ? & ? & _ & _ & _ & _ & _ & _ & _ & _
        & _ & Hplan).
  - vm_compute. reflexivity.
  - destruct (Hplan scripted_reads_only) as (Hctor & Hsub & _).
    split; [exact Hctor|exact Hsub].
Defined.

(** The scripted trainer reads only: the last configuration it is called
    with differs from the start of the sweeps in the swept fields alone. *)
Lemma unswept_fields_frozen_witness :
  trainer_reads_only (Collaborators0 := scripted) /\
  trainings (trace (main w_all_ok).2) !! 9%nat = Some (point_args "RG" 1) /\
  same_unswept (point_args "RG" 1) sweep_start_args.
Proof.
  split; [exact scripted_reads_only|].
  assert (trainings (trace (main w_all_ok).2) !! 9%nat
          = Some (point_args "RG" 1)) as Hlast
    by (vm_compute; reflexivity).
  split; [exact Hlast|].
  destruct (unswept_fields_frozen w_all_ok) as [_ Hframe].
  destruct (Hframe scripted_reads_only) as [Hall _].
  apply Hall. by apply list_elem_of_lookup_2 with 9%nat.
Defined.

(** A trainer that rewrites [args] breaks the frame: the hypothesis of C6
    is needed. *)
Lemma meddling_trainer_breaks_frame :
  ~ trainer_reads_only (Collaborators0 := meddling) /\
  exists a : script_Arguments,
    trainings (trace (main (Collaborators0 := meddling) w_all_ok).2) !! 1%nat
      = Some a /\
    ~ same_unswept a sweep_start_args.
Proof.
  split.
  - intros H. specialize (H sweep_start_args O w_all_ok). discriminate H.
  - exists (set_data_aug false (point_args "R" (1 # 4))). split.
    + vm_compute. reflexivity.
    + intros (_ & H & _). discriminate H.
Qed.

(** The first point of the first sweep constructs a one-channel model. *)
Lemma fresh_model_per_point_witness :
  exists (r : result Model) (t' : list (event Model)),
    trace (sweep_point 0 s_example).2 =
      trace s_example ++
      Stdout "synth_ratio=0.0 " :: CallCustomUNet 1 4 16 true r :: t' /\
    constructions t' = [].
Proof.
  destruct (fresh_model_per_point 0%Q s_example)
    as (r & t' & Htrace & Hctor & _).
  exists r, t'. split; [exact Htrace|exact Hctor].
Defined.

(** A run of 3725.5 seconds. *)
Lemma footer_duration_witness :
  (main w_all_ok).1 = Ok tt /\
  exists (t0 : list (event Model)) (text : string),
    trace (main w_all_ok).2 =
      t0 ++ [Stdout (ending_text now); Stdout text] /\
    forall line, line ∈ stdout_of t0 -> is_footer line = false.
Proof.
  split; [vm_compute; reflexivity|].
  destruct (footer_duration w_all_ok (main w_all_ok).2)
    as (t0 & now' & st & en & w2 & w_end & w3 & _ & _ & Hnow & Htrace
        & Hcalm & _).
  - vm_compute. reflexivity.
  - pose proof (f_equal fst Hnow) as Hn. change (now = now') in Hn.
    rewrite <- Hn in Htrace. exists t0. eexists.
    split; [exact Htrace|exact Hcalm].
Defined.

(** A tie between the first two epochs: the first one is the best. *)
Lemma best_epoch_is_earliest_witness :
  exists (best_epoch : nat) (v : Q),
    np_argmax [1 # 2; 2 # 4; 1 # 3]%Q = Ok best_epoch /\
    [1 # 2; 2 # 4; 1 # 3]%Q !! best_epoch = Some v /\
    forall (j : nat) (y : Q), [1 # 2; 2 # 4; 1 # 3]%Q !! j = Some y ->
      (y <= v)%Q /\ (y == v -> (best_epoch <= j)%nat).
Proof. exact (best_epoch_is_earliest (1 # 2) [2 # 4; 1 # 3]%Q). Defined.

(** Model construction runs out of memory at the first point: no trainer
    call, the failure line, a normal end. *)
Lemma construction_RuntimeError_skips_trainer_witness :
  isinstance_RuntimeError out_of_memory = true /\
  (sweep_point 0 s_ctor_oom).1 = Ok tt /\
  trainings (trace (sweep_point 0 s_ctor_oom).2) = [] /\
  stdout_of (trace (sweep_point 0 s_ctor_oom).2) =
    stdout_of (trace s_ctor_oom) ++
    ["synth_ratio=0.0 "; " | RuntimeError (CUDA out of memory)" +:+ nl].
Proof.
  split; [reflexivity|].
  destruct (construction_RuntimeError_skips_trainer 0%Q [] (ret tt)
              s_ctor_oom (mkWorld 0 1 [] []) out_of_memory)
    as (Hpoint & Htr & _); [reflexivity|reflexivity|].
  rewrite Hpoint. cbn [fst snd]. rewrite Htr. repeat split; reflexivity.
Defined.

(** * Further properties of the driver *)

(** ** Reading the history *)

Lemma np_argmax_Ok_lt (l : list Q) (b : nat) :
  np_argmax l = Ok b -> (b < length l)%nat.
Proof.
  destruct l as [|x l]; [done|]. intros Hb.
  destruct (np_argmax_first_max x l) as (b' & v & Hb' & Hv & _).
  assert (b' = b) as -> by congruence.
  by eapply lookup_lt_Some.
Qed.

(** X1.  [np.argmax] (line 62) raises exactly on the empty sequence; on any
    other sequence the index it returns lies within the sequence, so the
    read [history["val_dice"][best_epoch]] of line 66 cannot go out of
    range. *)
Theorem np_argmax_in_range (l : list Q) :
  (l = [] <-> exists e, np_argmax l = Raise e) /\
  (forall b : nat, np_argmax l = Ok b -> (b < length l)%nat).
Proof.
  destruct l as [|x l].
  - split; [split; [intros _; eexists; reflexivity|done]|done].
  - split; [split; [done|intros [e He]; done]|].
    apply np_argmax_Ok_lt.
Qed.

Lemma getitem_index_in_range (l : list Q) (i : nat) :
  (i < length l)%nat -> exists x, getitem_index l i = Ok x.
Proof.
  intros Hi. unfold getitem_index.
  destruct (lookup_lt_is_Some_2 l i Hi) as [x ->]. by exists x.
Qed.

Lemma complete_history_reduces (sc : Q) (h : History) :
  complete_history sc h ->
  exists (l_loss l_lossC l_dice l_diC : list Q) (b : nat)
         (loss lossC dice diC : Q),
    h !! "val_loss" = Some l_loss /\
    h !! ("val_lossC" +:+ format_f 1 sc) = Some l_lossC /\
    h !! "val_dice" = Some l_dice /\
    h !! ("val_diC" +:+ format_f 1 sc) = Some l_diC /\
    np_argmax l_dice = Ok b /\
    l_loss !! b = Some loss /\
    l_lossC !! b = Some lossC /\
    l_dice !! b = Some dice /\
    l_diC !! b = Some diC /\
    best_epoch_line sc h = Ok (metric_line loss sc lossC dice sc diC).
Proof.
  intros (l_loss & l_lossC & l_dice & l_diC & H1 & H2 & H3 & H4 & Hne
          & Hlen1 & Hlen2 & Hlen3).
  destruct l_dice as [|x l]; [done|].
  destruct (np_argmax_first_max x l) as (b & v & Hb & Hv & _).
  pose proof (np_argmax_Ok_lt _ _ Hb) as Hrange.
  destruct (getitem_index_in_range l_loss b ltac:(lia)) as [loss Hloss].
  destruct (getitem_index_in_range l_lossC b ltac:(lia)) as [lossC HlossC].
  destruct (getitem_index_in_range l_diC b ltac:(lia)) as [diC HdiC].
  exists l_loss, l_lossC, (x :: l), l_diC, b, loss, lossC, v, diC.
  split; [exact H1|]. split; [exact H2|]. split; [exact H3|].
  split; [exact H4|]. split; [exact Hb|].
  split; [by apply getitem_index_Ok|].
  split; [by apply getitem_index_Ok|].
  split; [exact Hv|].
  split; [by apply getitem_index_Ok|].
  unfold best_epoch_line, read_metrics, getitem_key.
  rewrite H3. cbn [result_bind]. rewrite Hb. cbn [result_bind].
  rewrite H1. cbn [result_bind]. rewrite Hloss. cbn [result_bind].
  rewrite H2. cbn [result_bind]. rewrite HlossC. cbn [result_bind].
  unfold getitem_index at 1. rewrite Hv. cbn [result_bind].
  rewrite H4. cbn [result_bind]. rewrite HdiC. reflexivity.
Qed.

(** X2.  A history that holds the four sequences, with a non-empty
    [val_dice] and no other sequence shorter than it, always reduces to a
    result line: lines 62 to 67 raise nothing on it, the best epoch is the
    arg-max of its [val_dice] sequence, and the line is made of the values
    that its sequences [val_loss], [val_lossC<scale>], [val_dice] and
    [val_diC<scale>] hold at that index. *)
Theorem complete_history_gives_line (sc : Q) (h : History) :
  complete_history sc h ->
  exists (l_loss l_lossC l_dice l_diC : list Q) (b : nat)
         (loss lossC dice diC : Q),
    h !! "val_loss" = Some l_loss /\
    h !! ("val_lossC" +:+ format_f 1 sc) = Some l_lossC /\
    h !! "val_dice" = Some l_dice /\
    h !! ("val_diC" +:+ format_f 1 sc) = Some l_diC /\
    np_argmax l_dice = Ok b /\
    l_loss !! b = Some loss /\
    l_lossC !! b = Some lossC /\
    l_dice !! b = Some dice /\
    l_diC !! b = Some diC /\
    best_epoch_line sc h = Ok (metric_line loss sc lossC dice sc diC).
Proof. apply complete_history_reduces. Qed.

(** ** The seconds of the duration message *)

Lemma round_half_even_comp (x y : Q) :
  (x == y)%Q -> round_half_even x = round_half_even y.
Proof.
  intros H. unfold round_half_even. rewrite (Qfloor_comp _ _ H).
  assert (x - inject_Z (Qfloor y) == y - inject_Z (Qfloor y))%Q as ->
    by (by rewrite H).
  reflexivity.
Qed.

Lemma round_half_even_floor (q : Q) :
  Qfloor q <= round_half_even q <= Qfloor q + 1.
Proof.
  unfold round_half_even.
  destruct (Qcompare _ _); [destruct (Z.even _)| |]; lia.
Qed.

Lemma sign_of_Qnonneg (q : Q) : (0 <= q)%Q -> sign_of q = EmptyString.
Proof.
  intros Hq. unfold sign_of.
  destruct (Qcompare q 0) eqn:E; try reflexivity.
  apply Qlt_alt in E. exfalso. by eapply Qlt_not_le.
Qed.

Lemma format_0f_2_0_Qnonneg (q : Q) :
  (0 <= q)%Q -> format_0f 2 0 q = zfill 2 (pretty (round_half_even q)).
Proof.
  intros Hq. unfold format_0f, fixed_digits.
  rewrite sign_of_Qnonneg by done. cbn [String.length Nat.sub].
  rewrite (round_half_even_comp _ q); [reflexivity|].
  rewrite (Qabs_pos _ Hq). change (inject_Z (10 ^ Z.of_nat 0)) with 1%Q.
  ring.
Qed.

Lemma round_half_even_60 (q : Q) :
  (0 <= q < 60)%Q ->
  0 <= round_half_even q <= 60 /\
  (round_half_even q = 60 <-> (119 # 2 <= q)%Q).
Proof.
  destruct q as [n p]. intros [Hlo Hhi].
  unfold Qle in Hlo. unfold Qlt in Hhi. cbn in Hlo, Hhi.
  unfold round_half_even, Qfloor, Qcompare, Qminus, Qplus, Qopp, inject_Z,
    Qle.
  cbn [Qnum Qden].
  pose proof (Z.mul_div_le n (Z.pos p) ltac:(lia)) as Hf1.
  pose proof (Z.mul_succ_div_gt n (Z.pos p) ltac:(lia)) as Hf2.
  set (f := n / Z.pos p) in *.
  assert (0 <= f) as Hf0 by (apply Z.div_pos; lia).
  assert (f <= 59) as Hf59 by nia.
  rewrite Pos2Z.inj_mul.
  destruct (Z.compare_spec ((n * 1 + - f * Z.pos p) * 2)
              (1 * (Z.pos p * 1))) as [Hc|Hc|Hc].
  - destruct (Z.even f) eqn:Hev.
    + split; [lia|]. split; [intros ->; done|]. intros H.
      assert (f = 59) as -> by nia. done.
    + split; [lia|]. split; [intros; nia|]. intros H. nia.
  - split; [lia|]. split; [intros ->; nia|]. intros H. nia.
  - split; [lia|]. split; [intros; nia|]. intros H. nia.
Qed.

(** X3.  The seconds of the duration message (line 97) are [duration % 60]
    rounded to the nearest integer, ties to even, and printed on two
    digits: they range over 0 to 60 inclusive, and 60 is printed exactly
    when the remainder is 59.5 or more. *)
Theorem seconds_field_range (d : Q) :
  let sec := round_half_even (py_mod d 60) in
  format_0f 2 0 (py_mod d 60) = zfill 2 (pretty sec) /\
  0 <= sec <= 60 /\
  (sec = 60 <-> (119 # 2 <= py_mod d 60)%Q).
Proof.
  intros sec. pose proof (py_mod_bounds d) as Hb.
  split; [apply format_0f_2_0_Qnonneg, Hb|].
  by apply round_half_even_60.
Qed.

(** ** The driver on malformed histories and on failures *)

Section Extras.

Context {World Model : Type} `{!Collaborators World Model}.

Implicit Types (s : state World Model) (e : exception) (ratio : Q).
Implicit Types (t : list (event Model)) (ev : event Model).

Local Open Scope driver_scope.

(** X4.  A history the reduction of lines 62 to 67 cannot read is fatal:
    the exception is not a [RuntimeError], so the [except] clause lets it
    through; the sweep point stops after the trainer call with its line
    unfinished, and nothing that follows the point runs.  A history
    without [val_dice] gives [KeyError: 'val_dice'], an empty [val_dice]
    the [ValueError] of [np.argmax]. *)
Theorem malformed_history_is_fatal ratio (rest : list Q) (k : M unit) s
    (m : Model) (w1 w2 : World) (h : History) (a2 : script_Arguments) e :
  let a1 := set_synthetic_ratio (Some ratio) (args s) in
  let n := String.length (input_channels a1) in
  CustomUNet n 4 16 true (world s) = (Ok m, w1) ->
  run_train_main a1 m w1 = (Ok h, a2, w2) ->
  best_epoch_line (scale_crop a2) h = Raise e ->
  let s' :=
    mkState a2 (Some m)
      (trace s ++
       [Stdout (prefix_text ratio);
        CallCustomUNet n 4 16 true (Ok m);
        CallTrain a1 m (Ok h)]) w2 in
  isinstance_RuntimeError e = false /\
  sweep_point ratio s = (Raise e, s') /\
  (for_each sweep_point (ratio :: rest) ;; k) s = (Raise e, s') /\
  (h !! "val_dice" = None -> e = Exception KeyError "'val_dice'") /\
  (h !! "val_dice" = Some [] ->
   e = Exception ValueError "attempt to get argmax of an empty sequence").
Proof.
  intros a1 n Hctor Htrain Hline s'.
  pose proof (best_epoch_line_Raise _ _ _ Hline) as He.
  assert (sweep_point ratio s = (Raise e, s')) as Hpoint.
  { rewrite sweep_point_unfold. unfold sweep_point_nf.
    fold a1. fold n. rewrite Hctor, Htrain, Hline. unfold handled.
    rewrite He. unfold s'. by rewrite <- !app_assoc. }
  split; [exact He|]. split; [exact Hpoint|]. split.
  { unfold bind. by rewrite for_each_cons, Hpoint. }
  unfold best_epoch_line, getitem_key in Hline.
  split; intros Hdice; rewrite Hdice in Hline;
    cbn [result_bind np_argmax] in Hline; by injection Hline as <-.
Qed.

(** X5.  The footer is printed exactly when [main] ends normally (the
    comment of line 94): a run that returns has a footer line in its
    output, a run that raises has none. *)
Theorem footer_iff_normal_end (w : World) :
  (main w).1 = Ok tt <->
  exists text, text ∈ stdout_of (trace (main w).2) /\ is_footer text = true.
Proof.
  pose proof (main_calm w) as Hcalm.
  destruct (main w) as [[[]|e] s]; cbn [fst snd].
  - destruct Hcalm as (t0 & now & d & _ & ->). split; [intros _|done].
    exists (ending_text now). split; [|apply ending_text_footer].
    rewrite stdout_of_app. apply elem_of_app. right. apply list_elem_of_here.
  - split; [done|]. intros (text & Hin & Hfooter). exfalso.
    destruct Hcalm as (_ & t0 & Ht0 & [Ht|(ev & Ht & Hev)]).
    + rewrite Ht in Hin. pose proof (stdout_of_calm _ Ht0 _ Hin). congruence.
    + rewrite Ht, stdout_of_app in Hin.
      apply elem_of_app in Hin as [Hin|Hin].
      * pose proof (stdout_of_calm _ Ht0 _ Hin). congruence.
      * destruct ev as [|? ? ? ? []|? ? []]; simpl in *; try done;
          by apply elem_of_nil in Hin.
Qed.

Lemma sweep_point_raise_stdout ratio s e s' :
  sweep_point ratio s = (Raise e, s') ->
  stdout_of (trace s') = stdout_of (trace s) ++ [prefix_text ratio].
Proof.
  rewrite sweep_point_unfold. unfold sweep_point_nf.
  destruct (CustomUNet _ _ _ _ _) as [[m|e0] w1].
  2: { unfold handled. destruct (isinstance_RuntimeError e0); [done|].
       intros [= <- <-]. cbn [trace]. rewrite !stdout_of_app. cbn.
       by rewrite app_nil_r. }
  destruct (run_train_main _ _ _) as [[[h|e0] a2] w2].
  2: { unfold handled. destruct (isinstance_RuntimeError e0); [done|].
       intros [= <- <-]. cbn [trace]. rewrite !stdout_of_app. cbn.
       by rewrite !app_nil_r. }
  destruct (best_epoch_line _ h) as [line|e0] eqn:Hline; [done|].
  unfold handled. destruct (isinstance_RuntimeError e0); [done|].
  intros [= <- <-]. cbn [trace]. rewrite !stdout_of_app. cbn.
  by rewrite !app_nil_r.
Qed.

Lemma for_each_raise_stdout (l : list Q) s e s' :
  for_each sweep_point l s = (Raise e, s') ->
  exists ratio, ratio ∈ l /\
    last (stdout_of (trace s')) = Some (prefix_text ratio).
Proof.
  revert s. induction l as [|ratio l IH]; intros s; [done|].
  rewrite for_each_cons.
  destruct (sweep_point ratio s) as [[[]|e0] s1] eqn:Hpoint.
  - intros Hrest. destruct (IH _ Hrest) as (r & Hr & Hlast).
    exists r. split; [by apply list_elem_of_further|exact Hlast].
  - intros [= <- <-]. exists ratio. split; [apply list_elem_of_here|].
    rewrite (sweep_point_raise_stdout _ _ _ _ Hpoint). apply last_snoc.
Qed.

(** X6.  When [main] raises, the exception is not a [RuntimeError] and the
    last thing printed is the prefix [synth_ratio=...] of the sweep point
    that failed: the output ends in an unfinished line. *)
Theorem fatal_run_leaves_unfinished_line (w : World) e s :
  main w = (Raise e, s) ->
  isinstance_RuntimeError e = false /\
  exists ratio, ratio ∈ synth_ratios /\
    last (stdout_of (trace s)) = Some (prefix_text ratio).
Proof.
  intros Hmain. split.
  { pose proof (main_calm w) as Hcalm. rewrite Hmain in Hcalm.
    apply Hcalm. }
  rewrite main_unfold in Hmain. unfold main_nf in Hmain.
  destruct (time_ctime w) as [now w1].
  destruct (time_time w1) as [start_time w2].
  destruct (for_each _ _ (first_sweep_state now w2)) as [[[]|e1] s1] eqn:H1.
  2: { injection Hmain as <- <-. by eapply for_each_raise_stdout. }
  destruct (for_each _ _ (second_sweep_state s1)) as [[[]|e2] s2] eqn:H2;
    [done|].
  injection Hmain as <- <-. by eapply for_each_raise_stdout.
Qed.

Lemma for_each_counts (l : list Q) s (r : result unit) s' :
  for_each sweep_point l s = (r, s') ->
  exists (tr : list script_Arguments) (cs : list (nat * nat * nat * bool)),
    trainings (trace s') = trainings (trace s) ++ tr /\
    constructions (trace s') = constructions (trace s) ++ cs /\
    (length tr <= length cs <= length l)%nat /\
    Forall (fun c => exists n : nat, c = (n, 4, 16, true)%nat) cs.
Proof.
  revert s. induction l as [|ratio l IH]; intros s.
  - intros [= <- <-]. exists [], []. rewrite !app_nil_r. cbn.
    repeat split; try lia. constructor.
  - rewrite for_each_cons.
    destruct (sweep_point ratio s) as [r1 s1] eqn:Hpoint.
    destruct (sweep_point_events _ _ _ _ Hpoint)
      as ((tr1 & Htr1 & Hsub1) & Hctor1 & _).
    apply sublist_length in Hsub1. cbn [length] in Hsub1.
    destruct r1 as [[]|e].
    + intros Hrest.
      destruct (IH _ Hrest) as (tr & cs & Htr & Hcs & Hlen & Hall).
      exists (tr1 ++ tr),
        ((String.length (input_channels (args s)), 4, 16, true)%nat :: cs).
      rewrite Htr, Htr1, Hcs, Hctor1, <- !app_assoc, !length_app.
      cbn [length app]. repeat split; try lia.
      constructor; [by eexists|exact Hall].
    + intros [= <- <-].
      exists tr1, [(String.length (input_channels (args s)), 4, 16, true)%nat].
      rewrite Htr1, Hctor1. cbn [length]. repeat split; try lia.
      repeat constructor. by eexists.
Qed.

(** X7.  Whatever the collaborators do and however the run ends, [main]
    constructs at most ten models, each with depth 4, 16 first-stage
    channels and batch normalization, and never calls the trainer more
    often than it has constructed a model. *)
Theorem calls_bounded (w : World) :
  (length (trainings (trace (main w).2))
   <= length (constructions (trace (main w).2)) <= 10)%nat /\
  Forall (fun c => exists n : nat, c = (n, 4, 16, true)%nat)
    (constructions (trace (main w).2)).
Proof.
  rewrite main_unfold. unfold main_nf.
  destruct (time_ctime w) as [now w1].
  destruct (time_time w1) as [start_time w2].
  destruct (for_each _ _ (first_sweep_state now w2)) as [r1 s1] eqn:H1.
  destruct (for_each_counts _ _ _ _ H1)
    as (tr1 & cs1 & Htr1 & Hcs1 & Hlen1 & Hall1).
  cbn [first_sweep_state trace trainings constructions omap list_omap app
       length] in Htr1, Hcs1, Hlen1.
  destruct r1 as [[]|e]; cbn [snd].
  { destruct (for_each _ _ (second_sweep_state s1)) as [r2 s2] eqn:H2.
    destruct (for_each_counts _ _ _ _ H2)
      as (tr2 & cs2 & Htr2 & Hcs2 & Hlen2 & Hall2).
    cbn [second_sweep_state trace] in Htr2, Hcs2.
    rewrite trainings_app, Htr1 in Htr2.
    rewrite constructions_app, Hcs1 in Hcs2.
    cbn [trainings constructions omap list_omap app length]
      in Htr2, Hcs2, Hlen2.
    rewrite app_nil_r in Htr2, Hcs2.
    assert (trainings (trace (footer_state start_time s2))
            = trainings (trace s2)) as Hft.
    { unfold footer_state. destruct (time_time _) as [? ?].
      destruct (time_ctime _) as [? ?]. cbn [trace].
      rewrite trainings_app. cbn. by rewrite app_nil_r. }
    assert (constructions (trace (footer_state start_time s2))
            = constructions (trace s2)) as Hfc.
    { unfold footer_state. destruct (time_time _) as [? ?].
      destruct (time_ctime _) as [? ?]. cbn [trace].
      rewrite constructions_app. cbn. by rewrite app_nil_r. }
    change (length synth_ratios) with 5%nat in *.
    destruct r2 as [[]|e]; cbn [snd];
      rewrite ?Hft, ?Hfc, Htr2, Hcs2, !length_app;
      (split; [lia|by apply Forall_app]). }
  change (length synth_ratios) with 5%nat in *.
  rewrite Htr1, Hcs1. split; [lia|exact Hall1].
Qed.

Lemma sweep_point_benign (Hb : benign) ratio s :
  exists s', sweep_point ratio s = (Ok tt, s').
Proof.
  destruct Hb as [Hctor Htrain].
  rewrite sweep_point_unfold. unfold sweep_point_nf.
  destruct (CustomUNet _ _ _ _ _) as [[m|e] w1] eqn:Ec.
  2: { unfold handled. rewrite (Hctor _ _ _ _ _ _ _ Ec). eauto. }
  destruct (run_train_main _ _ _) as [[[h|e] a2] w2] eqn:Et;
    pose proof (Htrain _ _ _ _ _ _ Et) as Hr; cbn in Hr.
  2: { unfold handled. rewrite Hr. eauto. }
  destruct (complete_history_reduces _ _ Hr)
    as (? & ? & ? & ? & ? & ? & ? & ? & ? & _ & _ & _ & _ & _ & _ & _ & _
        & _ & ->).
  eauto.
Qed.

Lemma for_each_benign (Hb : benign) (l : list Q) s :
  exists s', for_each sweep_point l s = (Ok tt, s').
Proof.
  revert s. induction l as [|ratio l IH]; intros s; [by eexists|].
  rewrite for_each_cons.
  destruct (sweep_point_benign Hb ratio s) as [s1 ->]. apply IH.
Qed.

(** X8.  When model construction and the trainer fail with [RuntimeError]
    only and every history the trainer returns is complete, [main] ends
    normally, after ten sweep points and ten model constructions. *)
Theorem benign_run_ends_normally (Hb : benign) (w : World) :
  (main w).1 = Ok tt /\
  length (constructions (trace (main w).2)) = 10%nat.
Proof.
  assert ((main w).1 = Ok tt) as Hok.
  { rewrite main_unfold. unfold main_nf.
    destruct (time_ctime w) as [now w1].
    destruct (time_time w1) as [start_time w2].
    destruct (for_each_benign Hb synth_ratios (first_sweep_state now w2))
      as [s1 ->].
    by destruct (for_each_benign Hb synth_ratios (second_sweep_state s1))
      as [s2 ->]. }
  split; [exact Hok|].
  destruct (main w) as [r s] eqn:Hmain. cbn [fst snd] in *. subst r.
  destruct (main_ok_inv w s Hmain)
    as (now & start_time & w2 & s1 & s2 & _ & _ & H1 & H2 & ->).
  destruct (for_each_ok_output _ _ _ H1) as (? & nsR & _ & HlenR & _ & HcR).
  destruct (for_each_ok_output _ _ _ H2) as (? & nsRG & _ & HlenRG & _ & HcRG).
  unfold footer_state. destruct (time_time _) as [? ?].
  destruct (time_ctime _) as [? ?]. cbn [trace].
  rewrite constructions_app, HcRG. cbn [second_sweep_state trace].
  rewrite constructions_app, HcR. cbn.
  rewrite !length_app, !length_fmap, HlenR, HlenRG. reflexivity.
Qed.

Lemma fresh_models_app t seg :
  fresh_models t -> fresh_models seg -> fresh_models (t ++ seg).
Proof.
  intros Ht Hseg t1 t2 a m r Heq.
  apply app_eq_app in Heq as [l [[-> Hl]|[-> Hl]]].
  - destruct l as [|ev l].
    + cbn in Hl. destruct (Hseg [] t2 a m r (eq_sym Hl)) as [t0 H0].
      by destruct t0.
    + injection Hl as <- ->. eapply Ht. reflexivity.
  - destruct (Hseg _ _ _ _ _ Hl) as [t0 ->].
    exists (t ++ t0). by rewrite app_assoc.
Qed.

Lemma fresh_models_quiet t : trainings t = [] -> fresh_models t.
Proof.
  intros Hq t1 t2 a m r ->. rewrite trainings_app in Hq.
  cbn in Hq. by destruct (trainings t1).
Qed.

Lemma fresh_models_point (pre : string) (a : script_Arguments) (m : Model)
    (r : result History) (tail : list (event Model)) :
  trainings tail = [] ->
  fresh_models
    ([Stdout pre;
      CallCustomUNet (String.length (input_channels a)) 4 16 true (Ok m);
      CallTrain a m r] ++ tail).
Proof.
  intros Hq t1 t2 a' m' r' Heq.
  destruct t1 as [|e1 [|e2 [|e3 t1]]]; cbn in Heq; try done.
  - injection Heq as <- <- <- <- <-. by exists [Stdout pre].
  - injection Heq as _ _ _ ->. rewrite trainings_app in Hq.
    cbn in Hq. by destruct (trainings t1).
Qed.

Lemma sweep_point_fresh_models ratio s :
  fresh_models (trace s) -> fresh_models (trace (sweep_point ratio s).2).
Proof.
  intros Hs. rewrite sweep_point_unfold. unfold sweep_point_nf.
  destruct (CustomUNet _ _ _ _ _) as [[m|e] w1].
  2: { unfold handled. destruct (isinstance_RuntimeError e); cbn [snd trace];
       rewrite <- !app_assoc; (apply fresh_models_app; [exact Hs|]);
       by apply fresh_models_quiet. }
  destruct (run_train_main _ _ _) as [[[h|e] a2] w2].
  2: { unfold handled. destruct (isinstance_RuntimeError e); cbn [snd trace];
       rewrite <- !app_assoc; (apply fresh_models_app; [exact Hs|]).
       - by apply (fresh_models_point _ _ _ _ [Stdout _]).
       - by apply (fresh_models_point _ _ _ _ []). }
  destruct (best_epoch_line _ h) as [line|e].
  - cbn [snd trace]. rewrite <- !app_assoc.
    apply fresh_models_app; [exact Hs|].
    by apply (fresh_models_point _ _ _ _ [Stdout _]).
  - unfold handled. destruct (isinstance_RuntimeError e); cbn [snd trace];
      rewrite <- !app_assoc; (apply fresh_models_app; [exact Hs|]).
    + by apply (fresh_models_point _ _ _ _ [Stdout _]).
    + by apply (fresh_models_point _ _ _ _ []).
Qed.

Lemma for_each_fresh_models (l : list Q) s :
  fresh_models (trace s) ->
  fresh_models (trace (for_each sweep_point l s).2).
Proof.
  revert s. induction l as [|ratio l IH]; intros s Hs; [exact Hs|].
  rewrite for_each_cons.
  pose proof (sweep_point_fresh_models ratio s Hs) as H1.
  destruct (sweep_point ratio s) as [[[]|e] s1]; [by apply IH|exact H1].
Qed.

(** X9.  In every run of [main], each call of the trainer comes
    immediately after a successful model construction, is given the model
    that construction returned, and that model was built with as many
    input channels as the configuration of the call has channel
    characters: the trainer never receives a model left over from an
    earlier sweep point. *)
Theorem trainer_gets_fresh_model (w : World) (t1 t2 : list (event Model))
    (a : script_Arguments) (m : Model) (r : result History) :
  trace (main w).2 = t1 ++ CallTrain a m r :: t2 ->
  exists t0,
    t1 = t0 ++ [CallCustomUNet (String.length (input_channels a)) 4 16
                  true (Ok m)].
Proof.
  assert (fresh_models (trace (main w).2)) as Hfresh; [|apply Hfresh].
  rewrite main_unfold. unfold main_nf.
  destruct (time_ctime w) as [now w1].
  destruct (time_time w1) as [start_time w2].
  assert (fresh_models (trace (first_sweep_state (Model := Model) now w2)))
    as H0 by (by apply fresh_models_quiet).
  pose proof (for_each_fresh_models synth_ratios _ H0) as H1.
  destruct (for_each _ _ (first_sweep_state now w2)) as [[[]|e] s1];
    [|exact H1].
  cbn [snd] in H1.
  assert (fresh_models (trace (second_sweep_state s1))) as H1'.
  { cbn [second_sweep_state trace].
    apply fresh_models_app; [exact H1|by apply fresh_models_quiet]. }
  pose proof (for_each_fresh_models synth_ratios _ H1') as H2.
  destruct (for_each _ _ (second_sweep_state s1)) as [[[]|e] s2];
    [|exact H2].
  cbn [snd] in *. unfold footer_state.
  destruct (time_time _) as [? ?]. destruct (time_ctime _) as [? ?].
  cbn [trace]. apply fresh_models_app; [exact H2|by apply fresh_models_quiet].
Qed.

End Extras.

(** * The further properties on the scripted and the steady world *)

Lemma default_history_complete :
  complete_history 4 Scripted.default_history.
Proof.
  exists [9 # 10; 4 # 10]%Q, [8 # 10; 3 # 10]%Q, [2 # 10; 6 # 10]%Q,
    [25 # 100; 65 # 100]%Q.
  repeat split; try reflexivity; try done; cbn; lia.
Qed.

(** The default history of the scripted world reduces to the line of its
    second epoch. *)
Lemma complete_history_gives_line_witness :
  complete_history 4 Scripted.default_history /\
  np_argmax [2 # 10; 6 # 10]%Q = Ok 1%nat /\
  best_epoch_line 4 Scripted.default_history =
    Ok (metric_line (4 # 10) 4 (3 # 10) (6 # 10) 4 (65 # 100)).
Proof.
  split; [exact default_history_complete|].
  destruct (complete_history_gives_line 4 Scripted.default_history
              default_history_complete)
    as (l_loss & l_lossC & l_dice & l_diC & b & loss & lossC & dice & diC
        & H1 & H2 & H3 & H4 & Hb & Hloss & HlossC & Hdice & HdiC & Hline).
  injection H1 as <-. injection H2 as <-. injection H3 as <-.
  injection H4 as <-. injection Hb as <-.
  injection Hloss as <-. injection HlossC as <-. injection Hdice as <-.
  injection HdiC as <-.
  split; [reflexivity|exact Hline].
Defined.

(** The first training returns a history without [val_dice]. *)
Lemma malformed_history_is_fatal_witness :
  best_epoch_line 4 (<["val_loss" := [1 # 2]%Q]> ∅) =
    Raise (Exception KeyError "'val_dice'") /\
  (sweep_point 0 EdgeScenarios.s_no_dice).1 =
    Raise (Exception KeyError "'val_dice'") /\
  stdout_of (trace (sweep_point 0 EdgeScenarios.s_no_dice).2) =
    stdout_of (trace EdgeScenarios.s_no_dice) ++ ["synth_ratio=0.0 "].
Proof.
  split; [reflexivity|].
  destruct (malformed_history_is_fatal 0%Q [] (ret tt)
              EdgeScenarios.s_no_dice O
              (mkWorld 0 1 [] [Ok (<["val_loss" := [1 # 2]%Q]> ∅)])
              (mkWorld 0 1 [] [])
              (<["val_loss" := [1 # 2]%Q]> ∅)
              (set_synthetic_ratio (Some 0%Q) sweep_start_args)
              (Exception KeyError "'val_dice'"))
    as (_ & Hpoint & _); [reflexivity|reflexivity|reflexivity|].
  rewrite Hpoint. split; reflexivity.
Defined.

(** A run whose first training returns a history without [val_dice] ends
    with the prefix of the first point. *)
Lemma fatal_run_leaves_unfinished_line_witness :
  (main EdgeScenarios.w_no_dice).1 = Raise (Exception KeyError "'val_dice'") /\
  isinstance_RuntimeError (Exception KeyError "'val_dice'") = false /\
  exists ratio, ratio ∈ synth_ratios /\
    last (stdout_of (trace (main EdgeScenarios.w_no_dice).2))
      = Some (prefix_text ratio).
Proof.
  split; [vm_compute; reflexivity|].
  apply (fatal_run_leaves_unfinished_line EdgeScenarios.w_no_dice).
  vm_compute. reflexivity.
Defined.

Lemma steady_benign : benign (Collaborators0 := Steady.steady).
Proof.
  split.
  - intros n d c b w w' e H. discriminate H.
  - intros a a' m w w' r H. cbn in H.
    destruct (String.eqb (input_channels a) "RG");
      injection H as <- <- _; [reflexivity|].
    exists [9 # 10; 4 # 10]%Q, [8 # 10; 3 # 10]%Q, [2 # 10; 6 # 10]%Q,
      [25 # 100; 65 # 100]%Q.
    unfold Steady.history_for.
    repeat split; try done; try (cbn; lia);
      repeat (rewrite lookup_insert_ne by done); by rewrite lookup_insert_eq.
Qed.

(** The steady collaborators: out of memory on two channels, complete
    histories otherwise; the run ends normally. *)
Lemma benign_run_ends_normally_witness :
  benign (Collaborators0 := Steady.steady) /\
  (main (Collaborators0 := Steady.steady) Scripted.w_all_ok).1 = Ok tt /\
  length (constructions
            (trace (main (Collaborators0 := Steady.steady)
                      Scripted.w_all_ok).2)) = 10%nat.
Proof.
  split; [exact steady_benign|].
  exact (benign_run_ends_normally (Collaborators0 := Steady.steady)
           steady_benign Scripted.w_all_ok).
Defined.

(** The first trainer call of the run in which everything succeeds. *)
Lemma trainer_gets_fresh_model_witness :
  trace (main Scripted.w_all_ok).2 !! 5%nat =
    Some (CallTrain (point_args "R" 0) O (Ok Scripted.default_history)) /\
  exists t0,
    take 5 (trace (main Scripted.w_all_ok).2) =
    t0 ++ [CallCustomUNet 1 4 16 true (Ok O)].
Proof.
  split; [vm_compute; reflexivity|].
  apply (trainer_gets_fresh_model Scripted.w_all_ok
           (take 5 (trace (main Scripted.w_all_ok).2))
           (drop 6 (trace (main Scripted.w_all_ok).2))
           (point_args "R" 0) O (Ok Scripted.default_history)).
  vm_compute. reflexivity.
Defined.
